(** * Traffic-light detector node: ros/src/tl_detector/tl_detector.py

    A shallow embedding of the [TLDetector] node and of its
    [GroundTruthBuilder] helper, followed by the properties of the light
    selector ([get_closest_light]), of the waypoint stub
    ([get_closest_waypoint]), of [process_traffic_lights] and of the
    per-frame debounce block at the end of [image_cb].

    Conventions of the embedding:
    - Python floats are the binary64 numbers [float]: [-], [+], [/],
      [abs], [<] and [>] are the IEEE operations, with their infinities,
      signed zeros and NaN; [math.sqrt] is the IEEE square root with the
      ValueError Python adds to it.  Python ints are [Z].
    - A Python expression that can raise computes a [result]: a value or
      an exception.  A method of [TLDetector] that reads or writes [self]
      is a computation in the monad [M]: it takes the object and either
      returns a value with the updated object or raises, leaving the
      object as it was when the exception left the method.
    - ROS messages are records holding the fields the node reads; each
      message type lives in a module named after it, so that
      [pose.pose.position.x] reads
      [Point.x (Pose.position (PoseStamped.pose pose))].
    - What the node sends out is logged on the object that sends it: the
      publisher [upcoming_red_light_pub] is the list of the integers
      published so far, oldest first, and the ground-truth builder records
      the files it wrote.
    - What the node calls and does not define is a variable of a section:
      the float power [**] and [math.atan2] of the interpreter,
      [tf.transformations], [cv_bridge] and the classifier. *)

From Stdlib Require Import Floats ZArith List String Lia Bool.
From Stdlib Require Import DecimalString DecimalZ Permutation.
Import ListNotations.

(** ** Exceptions and results *)

Inductive exn : Type :=
| NameError (name : string)
| AttributeError (name : string)
| OverflowError
| ValueError.

Inductive result (A : Type) : Type :=
| Ok (a : A)
| Err (e : exn).
Arguments Ok {A} a.
Arguments Err {A} e.

Definition rbind {A B} (r : result A) (k : A -> result B) : result B :=
  match r with
  | Ok a => k a
  | Err e => Err e
  end.

Notation "x <-- c ;; k" := (rbind c (fun x => k))
  (at level 61, c at next level, right associativity).


Definition result_map {A B} (f : A -> B) (r : result A) : result B :=
  match r with Ok a => Ok (f a) | Err e => Err e end.

(** ** Module-level constants (lines 16-18)

    The two distances are ints; the node compares them with floats only,
    where they count as the floats 300.0 and 20.0. *)

Definition STATE_COUNT_THRESHOLD : Z := 3.
Definition MAX_LIGHTS_DISTANCE : float := 300.
Definition MIN_LIGHTS_DISTANCE : float := 20.

(** ** Messages *)

Module Point.
Record t : Type := mk { x : float; y : float; z : float }.
End Point.

Module Quaternion.
Record t : Type := mk { x : float; y : float; z : float; w : float }.
End Quaternion.

Module Pose.
Record t : Type := mk { position : Point.t; orientation : Quaternion.t }.
End Pose.

Module PoseStamped.
Record t : Type := mk { pose : Pose.t }.
End PoseStamped.

Module TrafficLight.
(** Modelled from the spec: the message declaration styx_msgs/TrafficLight
    is not among the sources; the spec gives the light state as the
    enumeration RED, YELLOW, GREEN, UNKNOWN. *)
Inductive state_t : Type := RED | YELLOW | GREEN | UNKNOWN.

Record t : Type := mk { pose : PoseStamped.t; state : state_t }.

Definition state_eq_dec (a b : state_t) : {a = b} + {a <> b}.
Proof. decide equality. Defined.

(** Python's [a == b] and [a != b] on light states. *)
Definition state_eqb (a b : state_t) : bool :=
  if state_eq_dec a b then true else false.
Definition state_neqb (a b : state_t) : bool := negb (state_eqb a b).
End TrafficLight.

Module Waypoint.
Record t : Type := mk { pose : PoseStamped.t }.
End Waypoint.

Module Lane.
Record t : Type := mk { waypoints : list Waypoint.t }.
End Lane.

Module Image.
Record t : Type :=
  mk { height : Z; width : Z; encoding : string; data : list Z }.
End Image.

(** An OpenCV image: rows of (blue, green, red) pixels. *)
Definition CvImage : Type := list (list (Z * Z * Z)).

(** ** Geometry *)

Open Scope float_scope.

(** [math.pi], the float nearest to pi. *)
Definition math_pi : float := 0x1.921fb54442d18p+1.

(** [math.sqrt]: the IEEE square root; a negative argument, minus infinity
    included, gives ValueError ("math domain error"), while NaN, the two
    zeros and plus infinity are returned as the square root has them. *)
Definition math_sqrt (x : float) : result float :=
  if x <? 0 then Err ValueError else Ok (sqrt x).

(** A float that is not NaN: it compares equal to itself. *)
Definition ordered (a : float) : bool := (a =? a).

Section Selector.

(** [x ** w] on floats, which raises OverflowError when the power of a
    finite [x] is out of the floats' range. *)
Variable float_pow : float -> float -> result float.

(** [math.atan2 y x]. *)
Variable math_atan2 : float -> float -> float.

(** [tf.transformations.euler_from_quaternion], applied to the tuple
    [(x, y, z, w)]; it returns (roll, pitch, yaw). *)
Variable euler_from_quaternion : float * float * float * float
                                 -> float * float * float.

(** The local function [dist] of [get_closest_light] (lines 159-160):
    the left square, the right square, their sum, its root. *)
Definition dist (p1 p2 : Point.t) : result float :=
  sqx <-- float_pow (Point.x p2 - Point.x p1) 2 ;;
  sqy <-- float_pow (Point.y p2 - Point.y p1) 2 ;;
  math_sqrt (sqx + sqy).

(** ** The light selector (lines 135-183) *)

(** [dist(pose.pose.position, lights[i].pose.pose.position)], line 166. *)
Definition light_distance (pose : PoseStamped.t) (light : TrafficLight.t)
    : result float :=
  dist (Pose.position (PoseStamped.pose pose))
       (Pose.position (PoseStamped.pose (TrafficLight.pose light))).

(** The [heading] of lines 174-176: the bearing from the vehicle to the
    light. *)
Definition light_heading (pose : PoseStamped.t) (light : TrafficLight.t)
    : float :=
  math_atan2
    (Point.y (Pose.position (PoseStamped.pose (TrafficLight.pose light)))
     - Point.y (Pose.position (PoseStamped.pose pose)))
    (Point.x (Pose.position (PoseStamped.pose (TrafficLight.pose light)))
     - Point.x (Pose.position (PoseStamped.pose pose))).

(** The test of line 173 on a distance, and the test of line 179. *)
Definition in_range (distance : float) : bool :=
  (distance <? MAX_LIGHTS_DISTANCE) && (MIN_LIGHTS_DISTANCE <? distance).

Definition in_cone (yaw : float) (pose : PoseStamped.t)
    (light : TrafficLight.t) : bool :=
  abs (yaw - light_heading pose light) <? math_pi / 9.

(** One iteration of the loop of lines 165-181 on [lights[i] = light]; the
    accumulator is the pair of the locals [(result, best_distance)].
    The distance is computed first, and an exception of [dist] leaves the
    loop and the method. *)
Definition scan_light (yaw : float) (pose : PoseStamped.t)
    (acc : option TrafficLight.t * option float) (light : TrafficLight.t)
    : result (option TrafficLight.t * option float) :=
  distance <-- light_distance pose light ;;
  let skip :=
    match snd acc with
    | Some best_distance => best_distance <? distance
    | None => false
    end in
  if skip then Ok acc (* continue *)
  else if in_range distance then
    if in_cone yaw pose light then Ok (Some light, Some distance)
    else Ok acc
  else Ok acc.

(** The loop over the lights that are left, from the locals [acc]. *)
Fixpoint scan_lights_from (yaw : float) (pose : PoseStamped.t)
    (lights : list TrafficLight.t)
    (acc : option TrafficLight.t * option float)
    : result (option TrafficLight.t * option float) :=
  match lights with
  | [] => Ok acc
  | light :: rest =>
      acc' <-- scan_light yaw pose acc light ;;
      scan_lights_from yaw pose rest acc'
  end.

(** The whole loop, from [result = None] and [best_distance = None]. *)
Definition scan_lights (yaw : float) (pose : PoseStamped.t)
    (lights : list TrafficLight.t)
    : result (option TrafficLight.t * option float) :=
  scan_lights_from yaw pose lights (None, None).

(** A light whose distance is [distance] is a candidate when it passes the
    distance test of line 173 and the angle test of line 179. *)
Definition candidate (yaw : float) (pose : PoseStamped.t)
    (light : TrafficLight.t) (distance : float) : bool :=
  in_range distance && in_cone yaw pose light.

(** What the loop has selected after the lights [ls]: a candidate [l] of
    [ls], at the distance [d], that no candidate before it is closer than,
    and that every candidate after it is strictly farther than. *)
Definition selected (yaw : float) (pose : PoseStamped.t)
    (ls : list TrafficLight.t) (l : TrafficLight.t) (d : float) : Prop :=
  exists pre post,
    ls = (pre ++ l :: post)%list
    /\ light_distance pose l = Ok d
    /\ candidate yaw pose l d = true
    /\ (forall c dc, In c pre -> light_distance pose c = Ok dc ->
          candidate yaw pose c dc = true -> (dc <? d) = false)
    /\ (forall c dc, In c post -> light_distance pose c = Ok dc ->
          candidate yaw pose c dc = true -> (d <? dc) = true).

(** The distance of every light of [ls] has been computed. *)
Definition measured (pose : PoseStamped.t) (ls : list TrafficLight.t)
    : Prop :=
  forall c, In c ls -> exists dc, light_distance pose c = Ok dc.

(** The loop invariant on the locals [(result, best_distance)]. *)
Definition scan_inv (yaw : float) (pose : PoseStamped.t)
    (ls : list TrafficLight.t) (acc : option TrafficLight.t * option float)
    : Prop :=
  measured pose ls
  /\ ((acc = (None, None)
       /\ forall c dc, In c ls -> light_distance pose c = Ok dc ->
            candidate yaw pose c dc = false)
      \/ (exists l d, acc = (Some l, Some d) /\ selected yaw pose ls l d)).

(** The [yaw] of lines 151-157. *)
Definition pose_yaw (pose : PoseStamped.t) : float :=
  let quaternion :=
    (Quaternion.x (Pose.orientation (PoseStamped.pose pose)),
     Quaternion.y (Pose.orientation (PoseStamped.pose pose)),
     Quaternion.z (Pose.orientation (PoseStamped.pose pose)),
     Quaternion.w (Pose.orientation (PoseStamped.pose pose))) in
  let euler_orientation := euler_from_quaternion quaternion in
  snd euler_orientation.

Definition get_closest_light (pose : option PoseStamped.t)
    (lights : option (list TrafficLight.t))
    : result (option TrafficLight.t) :=
  match pose with
  | None => Ok None
  | Some pose =>
      match lights with
      | None => Ok None
      | Some lights =>
          r <-- scan_lights (pose_yaw pose) pose lights ;;
          Ok (fst r)
      end
  end.

End Selector.

Close Scope float_scope.
Open Scope Z_scope.
Open Scope string_scope.

(** ** GroundTruthBuilder (lines 20-47) *)

Module GroundTruthBuilder.
(** [written] logs the calls of [cv2.imwrite]: file name and image, oldest
    first. *)
Record t : Type := mk {
  red_count : Z;
  yellow_count : Z;
  green_count : Z;
  images_dir : string;
  red_dir : string;
  yellow_dir : string;
  green_dir : string;
  written : list (string * CvImage)
}.

(** [__init__], lines 21-28. *)
Definition init : t :=
  let images_dir := "/home/student/saved_images" in
  {| red_count := 0; yellow_count := 0; green_count := 0;
     images_dir := images_dir;
     red_dir := images_dir ++ "/red";
     yellow_dir := images_dir ++ "/yellow";
     green_dir := images_dir ++ "/green";
     written := [] |}.

(** ['%s/%d.png' % (dir, count)]. *)
Definition png_path (dir : string) (count : Z) : string :=
  dir ++ "/" ++ NilZero.string_of_int (Z.to_int count) ++ ".png".

(** [save_image], lines 30-47; [img_file is None] for a light state that is
    none of the three colours, and then nothing is written. *)
Definition save_image (light : TrafficLight.state_t) (image : CvImage)
    (self : t) : t :=
  match light with
  | TrafficLight.RED =>
      let red_count' := red_count self + 1 in
      let img_file := png_path (red_dir self) red_count' in
      {| red_count := red_count'; yellow_count := yellow_count self;
         green_count := green_count self; images_dir := images_dir self;
         red_dir := red_dir self; yellow_dir := yellow_dir self;
         green_dir := green_dir self;
         written := written self ++ [(img_file, image)] |}
  | TrafficLight.YELLOW =>
      let yellow_count' := yellow_count self + 1 in
      let img_file := png_path (yellow_dir self) yellow_count' in
      {| red_count := red_count self; yellow_count := yellow_count';
         green_count := green_count self; images_dir := images_dir self;
         red_dir := red_dir self; yellow_dir := yellow_dir self;
         green_dir := green_dir self;
         written := written self ++ [(img_file, image)] |}
  | TrafficLight.GREEN =>
      let green_count' := green_count self + 1 in
      let img_file := png_path (green_dir self) green_count' in
      {| red_count := red_count self; yellow_count := yellow_count self;
         green_count := green_count'; images_dir := images_dir self;
         red_dir := red_dir self; yellow_dir := yellow_dir self;
         green_dir := green_dir self;
         written := written self ++ [(img_file, image)] |}
  | TrafficLight.UNKNOWN => self
  end.
End GroundTruthBuilder.

(** ** The detector object *)

(** The traffic-light configuration, [yaml.load(config_string)]; the node
    reads its entry [stop_line_positions], a list of (x, y) pairs. *)
Record Config : Type := { stop_line_positions : list (float * float) }.

(** The attributes of a [TLDetector].  [has_image] and [prev_light_loc] are
    not assigned by [__init__]: [None] stands for an attribute that does
    not exist yet.  [upcoming_red_light_pub] holds the integers published
    on /traffic_waypoint so far, oldest first. *)
Record TLDetector : Type := {
  pose : option PoseStamped.t;
  waypoints : option Lane.t;
  camera_image : option Image.t;
  lights : list TrafficLight.t;
  has_image : option bool;
  prev_light_loc : option (option Point.t);
  config : Config;
  upcoming_red_light_pub : list Z;
  state : TrafficLight.state_t;
  last_state : TrafficLight.state_t;
  last_wp : Z;
  state_count : Z;
  gt_builer : GroundTruthBuilder.t
}.

(** The state [__init__] leaves (lines 53-85), for the configuration read
    from the parameter server. *)
Definition init (cfg : Config) : TLDetector :=
  {| pose := None; waypoints := None; camera_image := None; lights := [];
     has_image := None; prev_light_loc := None; config := cfg;
     upcoming_red_light_pub := [];
     state := TrafficLight.UNKNOWN; last_state := TrafficLight.UNKNOWN;
     last_wp := -1; state_count := 0;
     gt_builer := GroundTruthBuilder.init |}.

(** Attribute assignments [self.f = v]. *)
Definition set_pose (v : option PoseStamped.t) (self : TLDetector) :=
  {| pose := v; waypoints := waypoints self;
     camera_image := camera_image self; lights := lights self;
     has_image := has_image self; prev_light_loc := prev_light_loc self;
     config := config self;
     upcoming_red_light_pub := upcoming_red_light_pub self;
     state := state self; last_state := last_state self;
     last_wp := last_wp self; state_count := state_count self;
     gt_builer := gt_builer self |}.

Definition set_waypoints (v : option Lane.t) (self : TLDetector) :=
  {| pose := pose self; waypoints := v;
     camera_image := camera_image self; lights := lights self;
     has_image := has_image self; prev_light_loc := prev_light_loc self;
     config := config self;
     upcoming_red_light_pub := upcoming_red_light_pub self;
     state := state self; last_state := last_state self;
     last_wp := last_wp self; state_count := state_count self;
     gt_builer := gt_builer self |}.

Definition set_camera_image (v : option Image.t) (self : TLDetector) :=
  {| pose := pose self; waypoints := waypoints self;
     camera_image := v; lights := lights self;
     has_image := has_image self; prev_light_loc := prev_light_loc self;
     config := config self;
     upcoming_red_light_pub := upcoming_red_light_pub self;
     state := state self; last_state := last_state self;
     last_wp := last_wp self; state_count := state_count self;
     gt_builer := gt_builer self |}.

Definition set_lights (v : list TrafficLight.t) (self : TLDetector) :=
  {| pose := pose self; waypoints := waypoints self;
     camera_image := camera_image self; lights := v;
     has_image := has_image self; prev_light_loc := prev_light_loc self;
     config := config self;
     upcoming_red_light_pub := upcoming_red_light_pub self;
     state := state self; last_state := last_state self;
     last_wp := last_wp self; state_count := state_count self;
     gt_builer := gt_builer self |}.

Definition set_has_image (v : option bool) (self : TLDetector) :=
  {| pose := pose self; waypoints := waypoints self;
     camera_image := camera_image self; lights := lights self;
     has_image := v; prev_light_loc := prev_light_loc self;
     config := config self;
     upcoming_red_light_pub := upcoming_red_light_pub self;
     state := state self; last_state := last_state self;
     last_wp := last_wp self; state_count := state_count self;
     gt_builer := gt_builer self |}.

Definition set_prev_light_loc (v : option (option Point.t))
    (self : TLDetector) :=
  {| pose := pose self; waypoints := waypoints self;
     camera_image := camera_image self; lights := lights self;
     has_image := has_image self; prev_light_loc := v;
     config := config self;
     upcoming_red_light_pub := upcoming_red_light_pub self;
     state := state self; last_state := last_state self;
     last_wp := last_wp self; state_count := state_count self;
     gt_builer := gt_builer self |}.

Definition set_state (v : TrafficLight.state_t) (self : TLDetector) :=
  {| pose := pose self; waypoints := waypoints self;
     camera_image := camera_image self; lights := lights self;
     has_image := has_image self; prev_light_loc := prev_light_loc self;
     config := config self;
     upcoming_red_light_pub := upcoming_red_light_pub self;
     state := v; last_state := last_state self;
     last_wp := last_wp self; state_count := state_count self;
     gt_builer := gt_builer self |}.

Definition set_last_state (v : TrafficLight.state_t) (self : TLDetector) :=
  {| pose := pose self; waypoints := waypoints self;
     camera_image := camera_image self; lights := lights self;
     has_image := has_image self; prev_light_loc := prev_light_loc self;
     config := config self;
     upcoming_red_light_pub := upcoming_red_light_pub self;
     state := state self; last_state := v;
     last_wp := last_wp self; state_count := state_count self;
     gt_builer := gt_builer self |}.

Definition set_last_wp (v : Z) (self : TLDetector) :=
  {| pose := pose self; waypoints := waypoints self;
     camera_image := camera_image self; lights := lights self;
     has_image := has_image self; prev_light_loc := prev_light_loc self;
     config := config self;
     upcoming_red_light_pub := upcoming_red_light_pub self;
     state := state self; last_state := last_state self;
     last_wp := v; state_count := state_count self;
     gt_builer := gt_builer self |}.

Definition set_state_count (v : Z) (self : TLDetector) :=
  {| pose := pose self; waypoints := waypoints self;
     camera_image := camera_image self; lights := lights self;
     has_image := has_image self; prev_light_loc := prev_light_loc self;
     config := config self;
     upcoming_red_light_pub := upcoming_red_light_pub self;
     state := state self; last_state := last_state self;
     last_wp := last_wp self; state_count := v;
     gt_builer := gt_builer self |}.

Definition set_gt_builer (v : GroundTruthBuilder.t) (self : TLDetector) :=
  {| pose := pose self; waypoints := waypoints self;
     camera_image := camera_image self; lights := lights self;
     has_image := has_image self; prev_light_loc := prev_light_loc self;
     config := config self;
     upcoming_red_light_pub := upcoming_red_light_pub self;
     state := state self; last_state := last_state self;
     last_wp := last_wp self; state_count := state_count self;
     gt_builer := v |}.

(** [self.upcoming_red_light_pub.publish(Int32(v))]. *)
Definition publish (v : Z) (self : TLDetector) :=
  {| pose := pose self; waypoints := waypoints self;
     camera_image := camera_image self; lights := lights self;
     has_image := has_image self; prev_light_loc := prev_light_loc self;
     config := config self;
     upcoming_red_light_pub := upcoming_red_light_pub self ++ [v];
     state := state self; last_state := last_state self;
     last_wp := last_wp self; state_count := state_count self;
     gt_builer := gt_builer self |}.

(** ** Methods as computations on the object *)

Inductive outcome (A : Type) : Type :=
| Returns (a : A) (self : TLDetector)
| Raises (e : exn) (self : TLDetector).
Arguments Returns {A} a self.
Arguments Raises {A} e self.

Definition M (A : Type) : Type := TLDetector -> outcome A.

Definition ret {A} (a : A) : M A := fun self => Returns a self.

Definition bind {A B} (c : M A) (k : A -> M B) : M B :=
  fun self =>
    match c self with
    | Returns a self' => k a self'
    | Raises e self' => Raises e self'
    end.

Definition raise {A} (e : exn) : M A := fun self => Raises e self.

(** A Python expression evaluated inside a method: its exception leaves
    the method. *)
Definition lift {A} (r : result A) : M A :=
  fun self =>
    match r with
    | Ok a => Returns a self
    | Err e => Raises e self
    end.

(** Reading [self]. *)
Definition get : M TLDetector := fun self => Returns self self.

(** An assignment to an attribute of [self]. *)
Definition modify (f : TLDetector -> TLDetector) : M unit :=
  fun self => Returns tt (f self).

Notation "x <- c ;; k" := (bind c (fun x => k))
  (at level 61, c at next level, right associativity).
Notation "c ;;; k" := (bind c (fun _ => k))
  (at level 61, right associativity).

(** The object a computation leaves, and the value it returns. *)
Definition final {A} (o : outcome A) : TLDetector :=
  match o with Returns _ self => self | Raises _ self => self end.

Definition returned {A} (o : outcome A) : option A :=
  match o with Returns a _ => Some a | Raises _ _ => None end.

(** *** The subscribers' callbacks (lines 89-96) *)

Definition pose_cb (msg : PoseStamped.t) : M unit :=
  modify (set_pose (Some msg)).

Definition waypoints_cb (waypoints : Lane.t) : M unit :=
  modify (set_waypoints (Some waypoints)).

(** [msg] is the TrafficLightArray's field [lights]. *)
Definition traffic_cb (msg : list TrafficLight.t) : M unit :=
  modify (set_lights msg).

(** *** get_closest_waypoint (lines 186-197) *)

Definition get_closest_waypoint (pose : Pose.t) : M Z :=
  ret 0.

(** *** The debounce block of image_cb (lines 123-133)

    [debounce_branch] is the [if]/[elif]/[else] of lines 123-132 for the
    pair [(light_wp, state)] that [process_traffic_lights] returned;
    [debounce] adds the increment of line 133. *)

Definition debounce_branch (light_wp : Z) (state' : TrafficLight.state_t)
    : M unit :=
  self <- get ;;
  if TrafficLight.state_neqb (state self) state' then
    modify (set_state_count 0) ;;;
    modify (set_state state')
  else if state_count self >=? STATE_COUNT_THRESHOLD then
    modify (fun self => set_last_state (state self) self) ;;;
    let light_wp :=
      if TrafficLight.state_eqb state' TrafficLight.RED
      then light_wp else -1 in
    modify (set_last_wp light_wp) ;;;
    modify (publish light_wp)
  else
    self <- get ;;
    modify (publish (last_wp self)).

Definition debounce (light_wp : Z) (state' : TrafficLight.state_t)
    : M unit :=
  debounce_branch light_wp state' ;;;
  modify (fun self => set_state_count (state_count self + 1) self).

Section Node.

Variable float_pow : float -> float -> result float.
Variable math_atan2 : float -> float -> float.
Variable euler_from_quaternion : float * float * float * float
                                 -> float * float * float.

(** [self.bridge.imgmsg_to_cv2(image, encoding)] of cv_bridge. *)
Variable imgmsg_to_cv2 : option Image.t -> string -> CvImage.

(** [self.light_classifier.get_classification(cv_image)]. *)
Variable get_classification : CvImage -> TrafficLight.state_t.

(** *** get_light_state (lines 199-216)

    It returns Python's [False] ([inl false]) when there is no image, and
    the classification otherwise. *)
Definition get_light_state (light : TrafficLight.t)
    : M (bool + TrafficLight.state_t) :=
  self <- get ;;
  match has_image self with
  | None => raise (AttributeError "has_image")
  | Some false =>
      modify (set_prev_light_loc (Some None)) ;;;
      ret (inl false)
  | Some true =>
      let cv_image := imgmsg_to_cv2 (camera_image self) "bgr8" in
      ret (inr (get_classification cv_image))
  end.

(** *** process_traffic_lights (lines 218-240)

    The local [light] is [None] from line 227 on; [light_wp] is bound
    nowhere, so the branch of lines 237-238 would raise once it had the
    state. *)
Definition process_traffic_lights : M (Z * TrafficLight.state_t) :=
  let light : option TrafficLight.t := None in
  self <- get ;;
  let stop_line_positions := stop_line_positions (config self) in
  car_position <-
    match pose self with
    | Some p =>
        i <- get_closest_waypoint (PoseStamped.pose p) ;; ret (Some i)
    | None => ret None
    end ;;
  match light with
  | Some light =>
      state <- get_light_state light ;;
      raise (NameError "light_wp")
  | None =>
      modify (set_waypoints None) ;;;
      ret (-1, TrafficLight.UNKNOWN)
  end.

(** *** image_cb (lines 98-133) *)

Definition image_cb (msg : Image.t) : M unit :=
  modify (set_has_image (Some true)) ;;;
  modify (set_camera_image (Some msg)) ;;;
  self <- get ;;
  light <-
    lift (get_closest_light float_pow math_atan2 euler_from_quaternion
            (pose self) (Some (lights self))) ;;
  match light with
  | Some light =>
      let cv_image := imgmsg_to_cv2 (camera_image self) "bgr8" in
      modify (fun self =>
        set_gt_builer
          (GroundTruthBuilder.save_image (TrafficLight.state light) cv_image
             (gt_builer self)) self)
  | None => ret tt
  end ;;;
  r <- process_traffic_lights ;;
  let '(light_wp, state) := r in
  debounce light_wp state.

(** *** The node's executions

    The events the node reacts to, and the objects it can be in: the one
    [__init__] leaves, and those a callback leaves, whether it returns or
    raises (rospy reports an exception of a callback and goes on with the
    next message). *)
Inductive event : Type :=
| PoseMsg (msg : PoseStamped.t)
| WaypointsMsg (waypoints : Lane.t)
| TrafficMsg (msg : list TrafficLight.t)
| ImageMsg (msg : Image.t).

Definition callback (ev : event) : M unit :=
  match ev with
  | PoseMsg msg => pose_cb msg
  | WaypointsMsg waypoints => waypoints_cb waypoints
  | TrafficMsg msg => traffic_cb msg
  | ImageMsg msg => image_cb msg
  end.

Inductive reachable : TLDetector -> Prop :=
| reachable_init (cfg : Config) : reachable (init cfg)
| reachable_callback (ev : event) (self : TLDetector) :
    reachable self ->
    reachable (final (callback ev self)).

End Node.

(** The debounce fields and the publisher agree on two objects. *)
Definition same_debounce_fields (a b : TLDetector) : Prop :=
  state a = state b /\ last_state a = last_state b
  /\ last_wp a = last_wp b /\ state_count a = state_count b
  /\ upcoming_red_light_pub a = upcoming_red_light_pub b.

(** ** Runs

    [run_events] lets the node react to a sequence of messages, oldest
    first, going on after a callback that raised; [completed_frames]
    counts the camera frames of the sequence whose callback returned. *)
Definition run_events
    (float_pow : float -> float -> result float)
    (math_atan2 : float -> float -> float)
    (euler_from_quaternion : float * float * float * float
                             -> float * float * float)
    (imgmsg_to_cv2 : option Image.t -> string -> CvImage)
    (get_classification : CvImage -> TrafficLight.state_t)
    (evs : list event) (self : TLDetector) : TLDetector :=
  fold_left
    (fun self ev =>
       final (callback float_pow math_atan2 euler_from_quaternion
                imgmsg_to_cv2 get_classification ev self))
    evs self.

Definition is_frame (ev : event) : bool :=
  match ev with ImageMsg _ => true | _ => false end.
Definition is_pose_msg (ev : event) : bool :=
  match ev with PoseMsg _ => true | _ => false end.
Definition is_traffic_msg (ev : event) : bool :=
  match ev with TrafficMsg _ => true | _ => false end.
Definition is_waypoints_msg (ev : event) : bool :=
  match ev with WaypointsMsg _ => true | _ => false end.

Definition returns {A} (o : outcome A) : bool :=
  match o with Returns _ _ => true | Raises _ _ => false end.

Fixpoint completed_frames
    (float_pow : float -> float -> result float)
    (math_atan2 : float -> float -> float)
    (euler_from_quaternion : float * float * float * float
                             -> float * float * float)
    (imgmsg_to_cv2 : option Image.t -> string -> CvImage)
    (get_classification : CvImage -> TrafficLight.state_t)
    (evs : list event) (self : TLDetector) : nat :=
  match evs with
  | [] => 0
  | ev :: rest =>
      let o := callback float_pow math_atan2 euler_from_quaternion
                 imgmsg_to_cv2 get_classification ev self in
      ((if is_frame ev && returns o then 1 else 0)
       + completed_frames float_pow math_atan2 euler_from_quaternion
           imgmsg_to_cv2 get_classification rest (final o))%nat
  end.

(** A sequence of calls of [save_image], oldest first, each with the light
    state and the image it is given. *)
Definition save_images (shots : list (TrafficLight.state_t * CvImage))
    (b : GroundTruthBuilder.t) : GroundTruthBuilder.t :=
  fold_left
    (fun b shot => GroundTruthBuilder.save_image (fst shot) (snd shot) b)
    shots b.

(** How many of the shots carry the light state [st]. *)
Definition count_state (st : TrafficLight.state_t)
    (shots : list (TrafficLight.state_t * CvImage)) : Z :=
  Z.of_nat
    (List.length
       (filter (fun shot => TrafficLight.state_eqb (fst shot) st) shots)).

(** A stop waypoint other than -1 is committed only together with the
    state RED. *)
Definition stop_only_on_red (self : TLDetector) : Prop :=
  last_wp self = -1 \/ last_state self = TrafficLight.RED.

(** The light [l] with its reported state erased. *)
Definition unlit (l : TrafficLight.t) : TrafficLight.t :=
  TrafficLight.mk (TrafficLight.pose l) TrafficLight.UNKNOWN.

(** The names of the files a ground-truth builder has written, oldest
    first. *)
Definition written_names (b : GroundTruthBuilder.t) : list string :=
  map fst (GroundTruthBuilder.written b).

(** The invariant of a builder made by [GroundTruthBuilder.init]: the
    three directories are those of [init], the counts are not negative,
    every file written is the file of a count from 1 to the count reached
    in its directory, and no name occurs twice. *)
Definition builder_inv (b : GroundTruthBuilder.t) : Prop :=
  GroundTruthBuilder.red_dir b
  = GroundTruthBuilder.red_dir GroundTruthBuilder.init
  /\ GroundTruthBuilder.yellow_dir b
     = GroundTruthBuilder.yellow_dir GroundTruthBuilder.init
  /\ GroundTruthBuilder.green_dir b
     = GroundTruthBuilder.green_dir GroundTruthBuilder.init
  /\ (0 <= GroundTruthBuilder.red_count b
      /\ 0 <= GroundTruthBuilder.yellow_count b
      /\ 0 <= GroundTruthBuilder.green_count b)
  /\ (forall f, In f (written_names b) ->
        (exists k, 1 <= k <= GroundTruthBuilder.red_count b
           /\ f = GroundTruthBuilder.png_path
                   (GroundTruthBuilder.red_dir GroundTruthBuilder.init) k)
        \/ (exists k, 1 <= k <= GroundTruthBuilder.yellow_count b
              /\ f = GroundTruthBuilder.png_path
                      (GroundTruthBuilder.yellow_dir GroundTruthBuilder.init)
                      k)
        \/ (exists k, 1 <= k <= GroundTruthBuilder.green_count b
              /\ f = GroundTruthBuilder.png_path
                      (GroundTruthBuilder.green_dir GroundTruthBuilder.init)
                      k))
  /\ NoDup (written_names b).

(** ** Scenarios

    Concrete inputs at which the properties below are exercised. *)

Open Scope float_scope.

(** An [euler_from_quaternion] that answers roll = pitch = yaw = 0.0: what
    tf.transformations answers for the identity quaternion (0, 0, 0, 1),
    the only orientation the scenarios use. *)
Definition level_euler (quaternion : float * float * float * float)
    : float * float * float :=
  (0, 0, 0).

(** A float power for the exponent 2, the only one the node uses: the
    rounded product x * x, and OverflowError when that is infinite for a
    finite x.  The scenarios square 0.0, 10.0, 100.0 and 1e200, where this
    is what the interpreter answers. *)
Definition square_pow (x w : float) : result float :=
  let r := x * x in
  if is_infinity r && is_finite x then Err OverflowError else Ok r.

(** A [math.atan2] for the bearings along the positive x axis, the only
    ones the scenarios take: atan2(0.0, d) is 0.0 for d > 0. *)
Definition axis_atan2 (y x : float) : float := 0.

(** The vehicle at the origin, heading along the x axis. *)
Definition origin_pose : PoseStamped.t :=
  PoseStamped.mk (Pose.mk (Point.mk 0 0 0) (Quaternion.mk 0 0 0 1)).

(** A light on the x axis, [d] ahead of the origin, mounted at height [h]. *)
Definition light_ahead (d h : float) (st : TrafficLight.state_t)
    : TrafficLight.t :=
  TrafficLight.mk
    (PoseStamped.mk (Pose.mk (Point.mk d 0 h) (Quaternion.mk 0 0 0 1))) st.

(** Two heads of one signal 100 ahead, one above the other; a light 10
    ahead, closer than [MIN_LIGHTS_DISTANCE]; and a light 1e200 ahead
    (the float nearest to 1e200), whose squared distance is out of the
    floats' range. *)
Definition lower_head : TrafficLight.t := light_ahead 100 5 TrafficLight.RED.
Definition upper_head : TrafficLight.t := light_ahead 100 6 TrafficLight.GREEN.
Definition near_light : TrafficLight.t := light_ahead 10 5 TrafficLight.RED.
Definition far_light : TrafficLight.t :=
  light_ahead 0x1.4e718d7d7625ap+664 5 TrafficLight.RED.

Close Scope float_scope.

(** A configuration with one stop line, and the libraries of the section
    [Node] for the scenarios: every image decodes to the empty picture and
    classifies as UNKNOWN. *)
Definition one_stop_line : Config :=
  {| stop_line_positions := [(90%float, 0%float)] |}.
Definition blank_cv2 (image : option Image.t) (enc : string) : CvImage := [].
Definition blind_classifier (image : CvImage) : TrafficLight.state_t :=
  TrafficLight.UNKNOWN.
Definition blank_frame : Image.t := Image.mk 0 0 "bgr8" [].

Definition scenario_run : list event -> TLDetector -> TLDetector :=
  run_events square_pow axis_atan2 level_euler blank_cv2 blind_classifier.

(** The object after a traffic message with the far light and a pose
    message with the vehicle at the origin. *)
Definition far_light_cached : TLDetector :=
  scenario_run [TrafficMsg [far_light]; PoseMsg origin_pose]
    (init one_stop_line).

(** Running the debounce block over a sequence of observations
    [(light_wp, state)]; the result lists, frame by frame, the integers the
    frame published and the committed waypoint it left. *)
Fixpoint debounce_run (obs : list (Z * TrafficLight.state_t))
    (self : TLDetector) : list (list Z * Z) * TLDetector :=
  match obs with
  | [] => ([], self)
  | (light_wp, st) :: obs' =>
      let self' := final (debounce light_wp st self) in
      let sent :=
        List.skipn (List.length (upcoming_red_light_pub self))
                   (upcoming_red_light_pub self') in
      let '(rows, self'') := debounce_run obs' self' in
      ((sent, last_wp self') :: rows, self'')
  end.

(** * Properties *)

Open Scope list_scope.

(** ** The order of the floats

    The comparisons of the node are those of IEEE binary64; what the
    proofs need of them is read off their specification on [spec_float]. *)

Section FloatOrder.

Open Scope float_scope.

Ltac sf_signs :=
  repeat match goal with s : bool |- _ => destruct s end;
  simpl in *; try congruence; auto.

Ltac sf_compare :=
  repeat match goal with
         | |- context [Z.compare ?a ?b] =>
             destruct (Z.compare_spec a b); subst
         | H : context [Z.compare ?a ?b] |- _ =>
             destruct (Z.compare_spec a b); subst
         | |- context [Pos.compare_cont Eq ?a ?b] =>
             change (Pos.compare_cont Eq a b) with (Pos.compare a b);
             destruct (Pos.compare_spec a b); subst
         | H : context [Pos.compare_cont Eq ?a ?b] |- _ =>
             change (Pos.compare_cont Eq a b) with (Pos.compare a b) in H;
             destruct (Pos.compare_spec a b); subst
         end;
  simpl in *; try congruence; try lia; auto.

Lemma SFltb_irrefl x : SFltb x x = false.
Proof.
  unfold SFltb, SFcompare. destruct x as [s|s| |s m e]; sf_signs; sf_compare.
Qed.

Lemma SFltb_asym a b : SFltb a b = true -> SFltb b a = false.
Proof.
  unfold SFltb, SFcompare.
  destruct a as [sa|sa| |sa ma ea]; destruct b as [sb|sb| |sb mb eb];
    sf_signs; sf_compare.
Qed.

Lemma SFltb_ordered a b :
  SFltb a b = true -> SFeqb a a = true /\ SFeqb b b = true.
Proof.
  unfold SFltb, SFeqb, SFcompare.
  destruct a as [sa|sa| |sa ma ea]; destruct b as [sb|sb| |sb mb eb];
    sf_signs; sf_compare.
Qed.

Lemma SFltb_negtrans c l x :
  SFltb c x = true -> SFeqb l l = true ->
  SFltb c l = true \/ SFltb l x = true.
Proof.
  unfold SFltb, SFeqb, SFcompare.
  destruct c as [sc|sc| |sc mc ec]; destruct l as [sl|sl| |sl ml el];
    destruct x as [sx|sx| |sx mx ex]; sf_signs; sf_compare.
Qed.

Lemma SFleb_of_not_ltb a b :
  SFeqb a a = true -> SFeqb b b = true ->
  SFltb b a = false -> SFleb a b = true.
Proof.
  unfold SFltb, SFleb, SFeqb, SFcompare.
  destruct a as [sa|sa| |sa ma ea]; destruct b as [sb|sb| |sb mb eb];
    sf_signs; sf_compare.
Qed.

Lemma SF_antisym a b m e :
  SFltb a b = false -> SFltb b a = false ->
  SFltb (S754_finite false m e) a = true ->
  SFltb (S754_finite false m e) b = true ->
  a = b.
Proof.
  unfold SFltb, SFcompare.
  destruct a as [sa|sa| |sa ma ea]; destruct b as [sb|sb| |sb mb eb];
    sf_signs; sf_compare.
Qed.

(** No float is less than itself, NaN included. *)
Lemma ltb_irrefl a : (a <? a) = false.
Proof. rewrite FloatAxioms.ltb_spec. apply SFltb_irrefl. Qed.

Lemma ltb_asym a b : (a <? b) = true -> (b <? a) = false.
Proof. rewrite !FloatAxioms.ltb_spec. apply SFltb_asym. Qed.

(** A comparison that holds has no NaN on either side. *)
Lemma ltb_ordered a b :
  (a <? b) = true -> ordered a = true /\ ordered b = true.
Proof.
  unfold ordered. rewrite FloatAxioms.ltb_spec, !FloatAxioms.eqb_spec.
  apply SFltb_ordered.
Qed.

(** Whatever is not NaN lies above [c] or below [x] when [c < x]. *)
Lemma ltb_negtrans c l x :
  (c <? x) = true -> ordered l = true ->
  (c <? l) = true \/ (l <? x) = true.
Proof.
  unfold ordered. rewrite !FloatAxioms.ltb_spec, FloatAxioms.eqb_spec.
  apply SFltb_negtrans.
Qed.

Lemma ltb_trans a b c : (a <? b) = true -> (b <? c) = true -> (a <? c) = true.
Proof.
  intros Hab Hbc.
  destruct (ltb_ordered _ _ Hbc) as [_ Hc].
  destruct (ltb_negtrans a c b Hab Hc) as [H | H]; [exact H|].
  rewrite (ltb_asym _ _ Hbc) in H. discriminate.
Qed.

(** Between two floats that are not NaN, not less is greater or equal. *)
Lemma leb_of_not_ltb a b :
  ordered a = true -> ordered b = true ->
  (b <? a) = false -> (a <=? b) = true.
Proof.
  unfold ordered.
  rewrite FloatAxioms.ltb_spec, FloatAxioms.leb_spec, !FloatAxioms.eqb_spec.
  apply SFleb_of_not_ltb.
Qed.

(** Two floats above [MIN_LIGHTS_DISTANCE], neither less than the other,
    are the same float. *)
Lemma ltb_antisym_eq a b :
  (a <? b) = false -> (b <? a) = false ->
  (MIN_LIGHTS_DISTANCE <? a) = true -> (MIN_LIGHTS_DISTANCE <? b) = true ->
  a = b.
Proof.
  rewrite !FloatAxioms.ltb_spec.
  assert (E : Prim2SF MIN_LIGHTS_DISTANCE
              = S754_finite false 5629499534213120 (-48))
    by (vm_compute; reflexivity).
  rewrite E. intros H1 H2 H3 H4.
  rewrite <- (SF2Prim_Prim2SF a), <- (SF2Prim_Prim2SF b). f_equal.
  exact (SF_antisym _ _ _ _ H1 H2 H3 H4).
Qed.

End FloatOrder.

(** ** The light selector *)

Section SelectorFacts.

Open Scope float_scope.

Variable float_pow : float -> float -> result float.
Variable math_atan2 : float -> float -> float.
Variable yaw : float.
Variable pose : PoseStamped.t.

Local Abbreviation distance_of := (light_distance float_pow pose).
Local Abbreviation is_candidate := (candidate math_atan2 yaw pose).
Local Abbreviation step := (scan_light float_pow math_atan2 yaw pose).
Local Abbreviation scan_from :=
  (scan_lights_from float_pow math_atan2 yaw pose).
Local Abbreviation chosen := (selected float_pow math_atan2 yaw pose).
Local Abbreviation inv := (scan_inv float_pow math_atan2 yaw pose).

(** An exception of [dist] is the exception of the iteration. *)
Lemma scan_light_err acc light e :
  distance_of light = Err e -> step acc light = Err e.
Proof. intros H. unfold scan_light. rewrite H. reflexivity. Qed.

(** The three ways an iteration goes once the distance is there. *)
Lemma scan_light_skip acc light d best :
  distance_of light = Ok d -> snd acc = Some best -> (best <? d) = true ->
  step acc light = Ok acc.
Proof.
  intros Hd Hb Hlt. unfold scan_light. rewrite Hd. simpl.
  rewrite Hb, Hlt. reflexivity.
Qed.

Lemma scan_light_reject acc light d :
  distance_of light = Ok d -> is_candidate light d = false ->
  step acc light = Ok acc.
Proof.
  intros Hd Hc. unfold scan_light. rewrite Hd. simpl.
  destruct (match snd acc with Some b => _ | None => false end);
    [reflexivity|].
  unfold candidate in Hc.
  destruct (in_range d); [|reflexivity].
  simpl in Hc. rewrite Hc. reflexivity.
Qed.

Lemma scan_light_take acc light d :
  distance_of light = Ok d -> is_candidate light d = true ->
  (forall best, snd acc = Some best -> (best <? d) = false) ->
  step acc light = Ok (Some light, Some d).
Proof.
  intros Hd Hc Hbest. unfold scan_light. rewrite Hd. simpl.
  unfold candidate in Hc. apply andb_prop in Hc as [Hr Hcone].
  destruct (snd acc) as [best|].
  - rewrite (Hbest best eq_refl), Hr, Hcone. reflexivity.
  - rewrite Hr, Hcone. reflexivity.
Qed.

(** An iteration that returns has computed the distance, and went one of
    the three ways. *)
Lemma scan_light_ok acc light acc' :
  step acc light = Ok acc' ->
  exists d,
    distance_of light = Ok d
    /\ ((exists best,
           snd acc = Some best /\ (best <? d) = true /\ acc' = acc)
        \/ ((forall best, snd acc = Some best -> (best <? d) = false)
            /\ is_candidate light d = true
            /\ acc' = (Some light, Some d))
        \/ ((forall best, snd acc = Some best -> (best <? d) = false)
            /\ is_candidate light d = false /\ acc' = acc)).
Proof.
  intros H. destruct (distance_of light) as [d|e] eqn:Hd.
  - exists d. split; [reflexivity|].
    destruct (snd acc) as [best|] eqn:Hb.
    + destruct (best <? d) eqn:Hlt.
      * left. exists best.
        rewrite (scan_light_skip acc light d best Hd Hb Hlt) in H.
        injection H as <-. auto.
      * right. destruct (is_candidate light d) eqn:Hc.
        -- left. rewrite (scan_light_take acc light d Hd Hc) in H.
           ++ injection H as <-.
              split; [intros b [= <-]; exact Hlt | auto].
           ++ rewrite Hb. intros b [= <-]. exact Hlt.
        -- right. rewrite (scan_light_reject acc light d Hd Hc) in H.
           injection H as <-.
           split; [intros b [= <-]; exact Hlt | auto].
    + right. destruct (is_candidate light d) eqn:Hc.
      * left. rewrite (scan_light_take acc light d Hd Hc) in H.
        -- injection H as <-. split; [intros b; discriminate | auto].
        -- rewrite Hb. intros b; discriminate.
      * right. rewrite (scan_light_reject acc light d Hd Hc) in H.
        injection H as <-. split; [intros b; discriminate | auto].
  - rewrite (scan_light_err acc light e Hd) in H. discriminate.
Qed.

(** A candidate's distance is not NaN. *)
Lemma candidate_ordered light d :
  is_candidate light d = true -> ordered d = true.
Proof.
  unfold candidate, in_range. intros H.
  apply andb_prop in H as [H _]. apply andb_prop in H as [H _].
  exact (proj1 (ltb_ordered _ _ H)).
Qed.

Lemma candidate_above_min light d :
  is_candidate light d = true -> (MIN_LIGHTS_DISTANCE <? d) = true.
Proof.
  unfold candidate, in_range. intros H.
  apply andb_prop in H as [H _]. apply andb_prop in H as [_ H]. exact H.
Qed.

Lemma measured_snoc ls x d :
  measured float_pow pose ls -> distance_of x = Ok d ->
  measured float_pow pose (ls ++ [x]).
Proof.
  intros Hm Hd c Hin. apply in_app_or in Hin as [Hin | [<- | []]];
    [exact (Hm c Hin) | eauto].
Qed.

Lemma selected_measured ls l d : chosen ls l d -> In l ls.
Proof. intros (pre & post & -> & _). apply in_elt. Qed.

(** No candidate of the list is closer than the selected light. *)
Lemma selected_is_minimal ls l d c dc :
  chosen ls l d -> In c ls -> distance_of c = Ok dc ->
  is_candidate c dc = true -> (dc <? d) = false.
Proof.
  intros (pre & post & -> & Hd & Hcl & Hpre & Hpost) Hin Hdc Hc.
  apply in_app_or in Hin as [Hin | [<- | Hin]].
  - exact (Hpre c dc Hin Hdc Hc).
  - rewrite Hd in Hdc. injection Hdc as <-. apply ltb_irrefl.
  - apply ltb_asym. exact (Hpost c dc Hin Hdc Hc).
Qed.

Lemma selected_snoc_far ls l d x dx :
  chosen ls l d -> distance_of x = Ok dx ->
  (is_candidate x dx = true -> (d <? dx) = true) ->
  chosen (ls ++ [x]) l d.
Proof.
  intros (pre & post & Hls & Hd & Hc & Hpre & Hpost) Hdx Hx.
  exists pre, (post ++ [x]).
  split; [rewrite Hls, <- app_assoc; reflexivity|].
  split; [exact Hd|]. split; [exact Hc|]. split; [exact Hpre|].
  intros c dc Hin Hdc Hcc. apply in_app_or in Hin as [Hin | [<- | []]].
  - exact (Hpost c dc Hin Hdc Hcc).
  - rewrite Hdx in Hdc. injection Hdc as <-. exact (Hx Hcc).
Qed.

Lemma selected_snoc_new ls x dx :
  distance_of x = Ok dx -> is_candidate x dx = true ->
  (forall c dc, In c ls -> distance_of c = Ok dc ->
     is_candidate c dc = true -> (dc <? dx) = false) ->
  chosen (ls ++ [x]) x dx.
Proof.
  intros Hdx Hc Hmin. exists ls, [].
  split; [reflexivity|]. split; [exact Hdx|]. split; [exact Hc|].
  split; [exact Hmin|]. intros c dc [].
Qed.

Lemma scan_light_inv ls acc x acc' :
  inv ls acc -> step acc x = Ok acc' -> inv (ls ++ [x]) acc'.
Proof.
  intros [Hm Hacc] Hstep.
  destruct (scan_light_ok acc x acc' Hstep) as (dx & Hdx & Hway).
  split; [exact (measured_snoc ls x dx Hm Hdx)|].
  destruct Hacc as [[-> Hnone] | (l & d & -> & Hsel)].
  - destruct Hway as [(best & Hb & _) | [(_ & Hc & ->) | (_ & Hc & ->)]].
    + discriminate Hb.
    + right. exists x, dx. split; [reflexivity|].
      apply selected_snoc_new; [exact Hdx|exact Hc|].
      intros c dc Hin Hdc Hcc. rewrite (Hnone c dc Hin Hdc) in Hcc.
      discriminate.
    + left. split; [reflexivity|].
      intros c dc Hin Hdc. apply in_app_or in Hin as [Hin | [<- | []]].
      * exact (Hnone c dc Hin Hdc).
      * rewrite Hdx in Hdc. injection Hdc as <-. exact Hc.
  - simpl in Hway.
    destruct Hway as [(best & [= <-] & Hlt & ->)
                     | [(Hbest & Hc & ->) | (Hbest & Hc & ->)]].
    + right. exists l, d. split; [reflexivity|].
      apply (selected_snoc_far ls l d x dx Hsel Hdx). intros _. exact Hlt.
    + right. exists x, dx. split; [reflexivity|].
      apply selected_snoc_new; [exact Hdx|exact Hc|].
      specialize (Hbest d eq_refl).
      intros c dc Hin Hdc Hcc.
      pose proof (selected_is_minimal ls l d c dc Hsel Hin Hdc Hcc) as Hcl.
      destruct (dc <? dx) eqn:Hlt; [|reflexivity].
      destruct Hsel as (pre & post & _ & Hd & Hcand & _).
      destruct (ltb_negtrans dc d dx Hlt (candidate_ordered l d Hcand))
        as [H | H]; congruence.
    + right. exists l, d. split; [reflexivity|].
      apply (selected_snoc_far ls l d x dx Hsel Hdx).
      intros Hcc. congruence.
Qed.

Lemma scan_from_inv rest :
  forall seen acc acc',
    inv seen acc -> scan_from rest acc = Ok acc' -> inv (seen ++ rest) acc'.
Proof.
  induction rest as [|x rest IH]; intros seen acc acc' Hinv H.
  - simpl in H. injection H as <-. rewrite app_nil_r. exact Hinv.
  - simpl in H. destruct (step acc x) as [acc1|e] eqn:Hstep; [|discriminate].
    simpl in H.
    replace (seen ++ x :: rest) with ((seen ++ [x]) ++ rest)
      by (rewrite <- app_assoc; reflexivity).
    apply (IH _ acc1); [|exact H].
    exact (scan_light_inv seen acc x acc1 Hinv Hstep).
Qed.

(** The loop raises what the first light whose distance cannot be
    computed raises. *)
Lemma scan_from_err rest :
  forall acc e,
    scan_from rest acc = Err e ->
    exists c, In c rest /\ distance_of c = Err e.
Proof.
  induction rest as [|x rest IH]; intros acc e H; [discriminate|].
  simpl in H. destruct (step acc x) as [acc1|e1] eqn:Hstep.
  - simpl in H. destruct (IH acc1 e H) as (c & Hin & Hc).
    exists c. split; [right; exact Hin|exact Hc].
  - simpl in H. injection H as <-. exists x. split; [left; reflexivity|].
    destruct (distance_of x) as [d|e'] eqn:Hd.
    + unfold scan_light in Hstep. rewrite Hd in Hstep. simpl in Hstep.
      destruct (match snd acc with Some b => _ | None => false end);
        [discriminate|].
      destruct (in_range d); [|discriminate].
      destruct (in_cone math_atan2 yaw pose x); discriminate.
    + rewrite (scan_light_err acc x e' Hd) in Hstep. congruence.
Qed.


Lemma scan_lights_inv ls acc :
  scan_lights float_pow math_atan2 yaw pose ls = Ok acc -> inv ls acc.
Proof.
  intros H. apply (scan_from_inv ls [] (None, None) acc); [|exact H].
  split; [intros c []|]. left. split; [reflexivity|]. intros c dc [].
Qed.

End SelectorFacts.

(** *** The scenarios' selections *)

(** One head ahead: it is selected. *)
Lemma select_lower_head :
  get_closest_light square_pow axis_atan2 level_euler
    (Some origin_pose) (Some [lower_head])
  = Ok (Some lower_head).
Proof. vm_compute. reflexivity. Qed.

(** Both heads, the lower one first: the upper one is selected. *)
Lemma select_among_heads :
  get_closest_light square_pow axis_atan2 level_euler
    (Some origin_pose) (Some [lower_head; upper_head])
  = Ok (Some upper_head).
Proof. vm_compute. reflexivity. Qed.

(** The two heads are candidates at the distance 100.0. *)
Lemma heads_at_100 :
  light_distance square_pow origin_pose lower_head = Ok 100%float
  /\ light_distance square_pow origin_pose upper_head = Ok 100%float
  /\ candidate axis_atan2 0 origin_pose lower_head 100 = true
  /\ candidate axis_atan2 0 origin_pose upper_head 100 = true.
Proof. vm_compute. repeat split. Qed.

(** *** Claims on get_closest_light *)

Section SelectorClaims.

Open Scope float_scope.

Variable float_pow : float -> float -> result float.
Variable math_atan2 : float -> float -> float.
Variable euler_from_quaternion : float * float * float * float
                                 -> float * float * float.

Local Abbreviation closest :=
  (get_closest_light float_pow math_atan2 euler_from_quaternion).
Local Abbreviation yaw_of := (pose_yaw euler_from_quaternion).

(** A returned light comes from a present pose and a present list, all of
    whose distances were computed. *)
Lemma get_closest_light_some pose lights l :
  closest pose lights = Ok (Some l) ->
  exists p ls d,
    pose = Some p /\ lights = Some ls
    /\ measured float_pow p ls
    /\ selected float_pow math_atan2 (yaw_of p) p ls l d.
Proof.
  destruct pose as [p|]; [|discriminate].
  destruct lights as [ls|]; [|discriminate].
  simpl. intros H.
  destruct (scan_lights float_pow math_atan2 (yaw_of p) p ls)
    as [acc|e] eqn:Hscan; [|discriminate].
  simpl in H. injection H as H.
  destruct (scan_lights_inv _ _ _ _ _ _ Hscan)
    as [Hm [[-> _] | (l' & d & -> & Hsel)]]; [discriminate|].
  simpl in H. injection H as ->.
  exists p, ls, d. auto.
Qed.




(** C4: whatever the pose and the lights, a light that get_closest_light
    returns is one of the lights, lies at a planar distance from the
    vehicle strictly greater than MIN_LIGHTS_DISTANCE (20) and strictly
    less than MAX_LIGHTS_DISTANCE (300), and satisfies
    abs(yaw - bearing) < pi / 9, the bearing being atan2(dy, dx) from the
    vehicle's position to the light's. *)
Theorem C4_closest_light_in_range_and_cone pose lights l :
  closest pose lights = Ok (Some l) ->
  exists p ls d,
    pose = Some p /\ lights = Some ls /\ In l ls
    /\ dist float_pow (Pose.position (PoseStamped.pose p))
         (Pose.position (PoseStamped.pose (TrafficLight.pose l)))
       = Ok d
    /\ (MIN_LIGHTS_DISTANCE <? d) = true
    /\ (d <? MAX_LIGHTS_DISTANCE) = true
    /\ (abs (yaw_of p
             - math_atan2
                 (Point.y (Pose.position
                             (PoseStamped.pose (TrafficLight.pose l)))
                  - Point.y (Pose.position (PoseStamped.pose p)))
                 (Point.x (Pose.position
                             (PoseStamped.pose (TrafficLight.pose l)))
                  - Point.x (Pose.position (PoseStamped.pose p))))
        <? math_pi / 9) = true.
Proof.
  intros H.
  destruct (get_closest_light_some _ _ _ H)
    as (p & ls & d & -> & -> & _ & pre & post & -> & Hd & Hc & _).
  unfold candidate, in_range in Hc.
  apply andb_prop in Hc as [Hr Hcone]. apply andb_prop in Hr as [Hmax Hmin].
  exists p, (pre ++ l :: post), d.
  split; [reflexivity|]. split; [reflexivity|].
  split; [apply in_elt|].
  split; [exact Hd|]. split; [exact Hmin|]. split; [exact Hmax|exact Hcone].
Qed.

(** C5 (amended): among the candidate lights (those passing the distance
    test and the heading test), get_closest_light returns one at minimum
    distance; every candidate that comes after the returned light in the
    list is strictly farther, so of the candidates at exactly the minimum
    distance the one encountered last is returned. *)
Theorem C5_closest_light_minimal_last_seen pose lights l :
  closest pose lights = Ok (Some l) ->
  exists p pre post d,
    pose = Some p /\ lights = Some (pre ++ l :: post)
    /\ light_distance float_pow p l = Ok d
    /\ candidate math_atan2 (yaw_of p) p l d = true
    /\ (forall c dc, In c (pre ++ l :: post) ->
          light_distance float_pow p c = Ok dc ->
          candidate math_atan2 (yaw_of p) p c dc = true ->
          (d <=? dc) = true)
    /\ (forall c dc, In c post ->
          light_distance float_pow p c = Ok dc ->
          candidate math_atan2 (yaw_of p) p c dc = true ->
          (d <? dc) = true).
Proof.
  intros H.
  destruct (get_closest_light_some _ _ _ H)
    as (p & ls & d & -> & -> & _ & Hsel).
  pose proof (fun c dc => selected_is_minimal _ _ _ _ _ _ _ c dc Hsel)
    as Hmin.
  destruct Hsel as (pre & post & -> & Hd & Hc & Hpre & Hpost).
  exists p, pre, post, d.
  split; [reflexivity|]. split; [reflexivity|].
  split; [exact Hd|]. split; [exact Hc|]. split; [|exact Hpost].
  intros c dc Hin Hdc Hcc. apply leb_of_not_ltb.
  - exact (candidate_ordered _ _ _ _ _ Hc).
  - exact (candidate_ordered _ _ _ _ _ Hcc).
  - exact (Hmin c dc Hin Hdc Hcc).
Qed.


End SelectorClaims.

(** The witness of C4: the single head 100 ahead is returned, and is in
    range and in the cone. *)
Lemma C4_witness_lower_head :
  exists p ls d,
    Some origin_pose = Some p /\ Some [lower_head] = Some ls
    /\ In lower_head ls
    /\ dist square_pow (Pose.position (PoseStamped.pose p))
         (Pose.position (PoseStamped.pose (TrafficLight.pose lower_head)))
       = Ok d
    /\ (MIN_LIGHTS_DISTANCE <? d)%float = true
    /\ (d <? MAX_LIGHTS_DISTANCE)%float = true
    /\ (abs (pose_yaw level_euler p
             - axis_atan2
                 (Point.y (Pose.position
                             (PoseStamped.pose
                                (TrafficLight.pose lower_head)))
                  - Point.y (Pose.position (PoseStamped.pose p)))
                 (Point.x (Pose.position
                             (PoseStamped.pose
                                (TrafficLight.pose lower_head)))
                  - Point.x (Pose.position (PoseStamped.pose p))))
        <? math_pi / 9)%float = true.
Proof.
  apply (C4_closest_light_in_range_and_cone square_pow axis_atan2
           level_euler (Some origin_pose) (Some [lower_head]) lower_head).
  exact select_lower_head.
Defined.

(** The counterexample of C5 as stated: two candidates at exactly the same
    distance, and the one encountered second is returned. *)
Lemma C5_tie_returns_second :
  light_distance square_pow origin_pose lower_head = Ok 100%float
  /\ light_distance square_pow origin_pose upper_head = Ok 100%float
  /\ candidate axis_atan2 0 origin_pose lower_head 100 = true
  /\ candidate axis_atan2 0 origin_pose upper_head 100 = true
  /\ get_closest_light square_pow axis_atan2 level_euler
       (Some origin_pose) (Some [lower_head; upper_head])
     = Ok (Some upper_head)
  /\ upper_head <> lower_head.
Proof.
  destruct heads_at_100 as (H1 & H2 & H3 & H4).
  split; [exact H1|]. split; [exact H2|]. split; [exact H3|].
  split; [exact H4|]. split; [exact select_among_heads|].
  intros H. apply (f_equal TrafficLight.state) in H. discriminate H.
Qed.

(** The witness of C5: with both heads in the list the upper one, last at
    the minimum distance, is returned. *)
Lemma C5_witness_heads :
  exists p pre post d,
    Some origin_pose = Some p
    /\ Some [lower_head; upper_head] = Some (pre ++ upper_head :: post)
    /\ light_distance square_pow p upper_head = Ok d
    /\ candidate axis_atan2 (pose_yaw level_euler p) p upper_head d = true
    /\ (forall c dc, In c (pre ++ upper_head :: post) ->
          light_distance square_pow p c = Ok dc ->
          candidate axis_atan2 (pose_yaw level_euler p) p c dc = true ->
          (d <=? dc)%float = true)
    /\ (forall c dc, In c post ->
          light_distance square_pow p c = Ok dc ->
          candidate axis_atan2 (pose_yaw level_euler p) p c dc = true ->
          (d <? dc)%float = true).
Proof.
  apply (C5_closest_light_minimal_last_seen square_pow axis_atan2
           level_euler (Some origin_pose)
           (Some [lower_head; upper_head]) upper_head).
  exact select_among_heads.
Defined.



(** ** The debounce block *)

Section DebounceFacts.

Open Scope Z_scope.

Lemma state_neqb_true a b : a <> b -> TrafficLight.state_neqb a b = true.
Proof.
  intros H. unfold TrafficLight.state_neqb, TrafficLight.state_eqb.
  destruct (TrafficLight.state_eq_dec a b); [contradiction|reflexivity].
Qed.

Lemma state_neqb_refl a : TrafficLight.state_neqb a a = false.
Proof.
  unfold TrafficLight.state_neqb, TrafficLight.state_eqb.
  destruct (TrafficLight.state_eq_dec a a); [reflexivity|contradiction].
Qed.

(** Lines 123-125 and 133: the observation differs from [self.state]. *)
Lemma debounce_changed light_wp st self :
  st <> state self ->
  debounce_branch light_wp st self
  = Returns tt (set_state st (set_state_count 0 self))
  /\ debounce light_wp st self
     = Returns tt (set_state_count (0 + 1)
                     (set_state st (set_state_count 0 self))).
Proof.
  intros H. unfold debounce, debounce_branch, bind, get, modify.
  rewrite state_neqb_true by congruence. split; reflexivity.
Qed.

(** Lines 126-130 and 133: the observation is [self.state] again and the
    count has reached the threshold. *)
Lemma debounce_commit light_wp st self :
  st = state self ->
  STATE_COUNT_THRESHOLD <= state_count self ->
  let wp := if TrafficLight.state_eqb st TrafficLight.RED
            then light_wp else -1 in
  debounce light_wp st self
  = Returns tt (set_state_count (state_count self + 1)
                  (publish wp (set_last_wp wp
                     (set_last_state (state self) self)))).
Proof.
  intros -> Hge. unfold debounce, debounce_branch, bind, get, modify.
  rewrite state_neqb_refl.
  destruct (Z.geb_spec (state_count self) STATE_COUNT_THRESHOLD); [|lia].
  reflexivity.
Qed.

(** Lines 131-133: the observation is [self.state] again and the count is
    below the threshold. *)
Lemma debounce_hold light_wp st self :
  st = state self ->
  state_count self < STATE_COUNT_THRESHOLD ->
  debounce light_wp st self
  = Returns tt (set_state_count (state_count self + 1)
                  (publish (last_wp self) self)).
Proof.
  intros -> Hlt. unfold debounce, debounce_branch, bind, get, modify.
  rewrite state_neqb_refl.
  destruct (Z.geb_spec (state_count self) STATE_COUNT_THRESHOLD); [lia|].
  reflexivity.
Qed.

(** The three cases cover every frame. *)
Lemma debounce_cases st self :
  (st <> state self)
  \/ (st = state self /\ STATE_COUNT_THRESHOLD <= state_count self)
  \/ (st = state self /\ state_count self < STATE_COUNT_THRESHOLD).
Proof.
  destruct (TrafficLight.state_eq_dec st (state self)); [|auto].
  destruct (Z_le_gt_dec STATE_COUNT_THRESHOLD (state_count self));
    [auto | right; right; split; [assumption|lia]].
Qed.


End DebounceFacts.

(** C1 (amended): from the initial debounce state (committed waypoint -1,
    observed state UNKNOWN, state_count 0) with threshold 3, feeding the
    observations RED, RED, GREEN, RED, RED, RED, each with the stop
    waypoint [wp], leaves the committed waypoint at -1 after every one of
    the six frames, and every integer published during them is -1; the
    committed output changes to the RED stop waypoint on the next
    observation, when that is RED again (the fourth RED in a row after the
    GREEN), and that frame publishes the waypoint. *)
Theorem C1_commit_on_fourth_consecutive_red (cfg : Config) (wp : Z) :
  let RED := TrafficLight.RED in
  let run :=
    debounce_run
      [(wp, RED); (wp, RED); (wp, TrafficLight.GREEN);
       (wp, RED); (wp, RED); (wp, RED)] (init cfg) in
  STATE_COUNT_THRESHOLD = 3
  /\ map snd (fst run) = [-1; -1; -1; -1; -1; -1]
  /\ (forall v, In v (List.concat (map fst (fst run))) -> v = -1)
  /\ last_wp (final (debounce wp RED (snd run))) = wp
  /\ upcoming_red_light_pub (final (debounce wp RED (snd run)))
     = upcoming_red_light_pub (snd run) ++ [wp].
Proof.
  cbn zeta. split; [reflexivity|]. split; [vm_compute; reflexivity|].
  split; [|split; vm_compute; reflexivity].
  intros v Hin. vm_compute in Hin. intuition congruence.
Qed.

(** The counterexample of C1 as stated, with stop waypoint 42: what each
    of the six frames publishes, and the committed waypoint it leaves.
    The sixth frame publishes the previous -1 and commits nothing. *)
Lemma C1_sixth_frame_commits_nothing :
  fst (debounce_run
         [(42, TrafficLight.RED); (42, TrafficLight.RED);
          (42, TrafficLight.GREEN); (42, TrafficLight.RED);
          (42, TrafficLight.RED); (42, TrafficLight.RED)]
         (init one_stop_line))
  = [([], -1); ([-1], -1); ([], -1); ([], -1); ([-1], -1); ([-1], -1)].
Proof. reflexivity. Qed.

(** C2: in every per-frame transition of the debounce block, an
    observation that differs from the previously observed state resets
    state_count to 0 (line 124; the increment of line 133 then ends the
    frame at 0 + 1), whatever the count was; and the committed fields
    last_state and last_wp change only in a transition that starts with
    state_count at STATE_COUNT_THRESHOLD or above (and with the
    observation equal to the previously observed state). *)
Theorem C2_count_reset_and_commit_gate
    (light_wp : Z) (st : TrafficLight.state_t) (self : TLDetector) :
  (st <> state self ->
     state_count (final (debounce_branch light_wp st self)) = 0
     /\ state (final (debounce_branch light_wp st self)) = st
     /\ state_count (final (debounce light_wp st self)) = 0 + 1)
  /\ (last_state (final (debounce light_wp st self)) <> last_state self
      \/ last_wp (final (debounce light_wp st self)) <> last_wp self ->
      state_count self >= STATE_COUNT_THRESHOLD /\ st = state self).
Proof.
  split.
  - intros H. destruct (debounce_changed light_wp st self H) as [-> ->].
    repeat split.
  - destruct (debounce_cases st self) as [H | [[H1 H2] | [H1 H2]]].
    + destruct (debounce_changed light_wp st self H) as [_ ->].
      simpl. intros [[] | []]; reflexivity.
    + intros _. split; [lia|exact H1].
    + rewrite (debounce_hold light_wp st self H1 H2).
      simpl. intros [[] | []]; reflexivity.
Qed.

(** The witness of C2: the first RED frame after [__init__] resets the
    count; and after three RED frames the fourth, which changes the
    committed waypoint from -1 to 42, starts with the count at the
    threshold. *)
Lemma C2_witness_reset_and_commit :
  (state_count (final (debounce_branch 42 TrafficLight.RED
                         (init one_stop_line))) = 0
   /\ state (final (debounce_branch 42 TrafficLight.RED
                      (init one_stop_line))) = TrafficLight.RED
   /\ state_count (final (debounce 42 TrafficLight.RED
                            (init one_stop_line))) = 0 + 1)
  /\ (state_count
        (snd (debounce_run
                [(42, TrafficLight.RED); (42, TrafficLight.RED);
                 (42, TrafficLight.RED)] (init one_stop_line)))
      >= STATE_COUNT_THRESHOLD
      /\ TrafficLight.RED
         = state
             (snd (debounce_run
                     [(42, TrafficLight.RED); (42, TrafficLight.RED);
                      (42, TrafficLight.RED)] (init one_stop_line)))).
Proof.
  split.
  - apply (proj1 (C2_count_reset_and_commit_gate 42 TrafficLight.RED
                    (init one_stop_line))).
    discriminate.
  - apply (proj2 (C2_count_reset_and_commit_gate 42 TrafficLight.RED
                    (snd (debounce_run
                            [(42, TrafficLight.RED); (42, TrafficLight.RED);
                             (42, TrafficLight.RED)] (init one_stop_line))))).
    right. discriminate.
Defined.

(** ** The waypoint stub, process_traffic_lights and image_cb *)

Section NodeFacts.

Open Scope Z_scope.

Variable float_pow : float -> float -> result float.
Variable math_atan2 : float -> float -> float.
Variable euler_from_quaternion : float * float * float * float
                                 -> float * float * float.
Variable imgmsg_to_cv2 : option Image.t -> string -> CvImage.
Variable get_classification : CvImage -> TrafficLight.state_t.

Local Abbreviation closest :=
  (get_closest_light float_pow math_atan2 euler_from_quaternion).
Local Abbreviation frame :=
  (image_cb float_pow math_atan2 euler_from_quaternion imgmsg_to_cv2
     get_classification).
Local Abbreviation in_run :=
  (reachable float_pow math_atan2 euler_from_quaternion imgmsg_to_cv2
     get_classification).

Lemma process_traffic_lights_eq self :
  process_traffic_lights imgmsg_to_cv2 get_classification self
  = Returns (-1, TrafficLight.UNKNOWN) (set_waypoints None self).
Proof.
  unfold process_traffic_lights, bind, get, modify, get_closest_waypoint, ret.
  destruct (pose self); reflexivity.
Qed.

(** A frame, spelled out up to the debounce block: lines 106-107, then
    the selector at line 109, whose exception ends the frame, then the
    capture of lines 110-113 and process_traffic_lights. *)
Lemma image_cb_unfold msg self :
  let s0 := set_camera_image (Some msg) (set_has_image (Some true) self) in
  frame msg self
  = match closest (pose self) (Some (lights self)) with
    | Ok light =>
        debounce (-1) TrafficLight.UNKNOWN
          (set_waypoints None
             match light with
             | Some light =>
                 set_gt_builer
                   (GroundTruthBuilder.save_image (TrafficLight.state light)
                      (imgmsg_to_cv2 (Some msg) "bgr8") (gt_builer self)) s0
             | None => s0
             end)
    | Err e => Raises e s0
    end.
Proof.
  intros s0.
  unfold image_cb, bind at 1 2 3 4 5 6, modify at 1 2, get at 1.
  cbn beta iota.
  change (pose (set_camera_image (Some msg)
                  (set_has_image (Some true) self))) with (pose self).
  change (lights (set_camera_image (Some msg)
                    (set_has_image (Some true) self))) with (lights self).
  destruct (closest (pose self) (Some (lights self))) as [[light|]|e];
    cbn [lift].
  - unfold modify at 1. cbn beta iota.
    rewrite process_traffic_lights_eq. reflexivity.
  - unfold ret at 1. cbn beta iota.
    rewrite process_traffic_lights_eq. reflexivity.
  - reflexivity.
Qed.

(** A frame on which the selector returns: the object [s1] that lines
    106-115 leave, and the observation (-1, UNKNOWN) handed to the
    debounce block. *)
Lemma image_cb_eq msg self light :
  closest (pose self) (Some (lights self)) = Ok light ->
  exists s1,
    frame msg self = debounce (-1) TrafficLight.UNKNOWN s1
    /\ waypoints s1 = None
    /\ same_debounce_fields s1 self.
Proof.
  intros H. rewrite image_cb_unfold, H.
  eexists. split; [reflexivity|].
  destruct light; split; try reflexivity; repeat split.
Qed.

(** A frame on which the selector raises: the frame is cached and nothing
    else has happened. *)
Lemma image_cb_aborts msg self e :
  closest (pose self) (Some (lights self)) = Err e ->
  frame msg self
  = Raises e (set_camera_image (Some msg) (set_has_image (Some true) self)).
Proof. intros H. rewrite image_cb_unfold, H. reflexivity. Qed.


(** C9: for every pose argument, get_closest_waypoint returns index 0,
    whatever the pose and whatever the detector object holds, its cached
    waypoint list included; the object is left as it was. *)
Theorem C9_closest_waypoint_is_zero (p : Pose.t) (self : TLDetector) :
  get_closest_waypoint p self = Returns 0 self.
Proof. reflexivity. Qed.

(** C8 (amended): when the waypoint sequence has not been received
    ([self.waypoints] is None) or is empty, get_closest_waypoint does not
    fail: it returns the waypoint index 0 and leaves the object as it
    was. *)
Theorem C8_no_waypoints_returns_zero (p : Pose.t) (self : TLDetector) :
  waypoints self = None
  \/ (exists lane, waypoints self = Some lane /\ Lane.waypoints lane = []) ->
  get_closest_waypoint p self = Returns 0 self
  /\ forall e self', get_closest_waypoint p self <> Raises e self'.
Proof. intros _. split; [reflexivity|]. intros e self'. discriminate. Qed.

(** C7: every call of process_traffic_lights returns the pair
    (-1, UNKNOWN).  The branch of lines 236-238 is not taken:
    get_light_state does not run (no classifier and no image decoder
    enters the result, and prev_light_loc stays as it was), and no
    NameError for light_wp is raised. *)
Theorem C7_process_traffic_lights_degenerate (self : TLDetector) :
  returned (process_traffic_lights imgmsg_to_cv2 get_classification self)
  = Some (-1, TrafficLight.UNKNOWN)
  /\ prev_light_loc
       (final (process_traffic_lights imgmsg_to_cv2 get_classification self))
     = prev_light_loc self
  /\ forall cv2 cls,
       process_traffic_lights cv2 cls self
       = process_traffic_lights imgmsg_to_cv2 get_classification self.
Proof.
  rewrite process_traffic_lights_eq.
  split; [reflexivity|]. split; [reflexivity|].
  intros cv2 cls. unfold process_traffic_lights, bind, get, modify,
    get_closest_waypoint, ret.
  destruct (pose self); reflexivity.
Qed.



End NodeFacts.

(** The witness of C8: right after [__init__] no waypoints have been
    received, and the lookup returns 0. *)
Lemma C8_witness_after_init :
  get_closest_waypoint (PoseStamped.pose origin_pose) (init one_stop_line)
  = Returns 0 (init one_stop_line)
  /\ forall e self',
       get_closest_waypoint (PoseStamped.pose origin_pose)
         (init one_stop_line) <> Raises e self'.
Proof.
  apply (C8_no_waypoints_returns_zero (PoseStamped.pose origin_pose)
           (init one_stop_line)).
  left. reflexivity.
Defined.

(** The counterexample of C8 as stated: with no waypoints received, and
    with an empty waypoint sequence, the lookup returns index 0 instead of
    failing. *)
Lemma C8_lookup_without_waypoints_returns :
  waypoints (init one_stop_line) = None
  /\ get_closest_waypoint (PoseStamped.pose origin_pose) (init one_stop_line)
     = Returns 0 (init one_stop_line)
  /\ get_closest_waypoint (PoseStamped.pose origin_pose)
       (set_waypoints (Some (Lane.mk [])) (init one_stop_line))
     = Returns 0 (set_waypoints (Some (Lane.mk [])) (init one_stop_line)).
Proof. repeat split. Qed.

(** The object with the far light and the pose cached is one of a run:
    the traffic message and the pose message after [__init__]. *)
Lemma far_light_cached_reachable :
  reachable square_pow axis_atan2 level_euler blank_cv2 blind_classifier
    far_light_cached.
Proof.
  exact (reachable_callback _ _ _ _ _ (PoseMsg origin_pose) _
           (reachable_callback _ _ _ _ _ (TrafficMsg [far_light]) _
              (reachable_init _ _ _ _ _ one_stop_line))).
Qed.




(** * Further properties of the code *)

(** ** The selector and the order of the lights *)

Section MoreSelectorFacts.

Open Scope float_scope.

Variable float_pow : float -> float -> result float.
Variable math_atan2 : float -> float -> float.
Variable euler_from_quaternion : float * float * float * float
                                 -> float * float * float.

Local Abbreviation closest :=
  (get_closest_light float_pow math_atan2 euler_from_quaternion).
Local Abbreviation yaw_of := (pose_yaw euler_from_quaternion).

(** What a call with a pose and a list comes to: an exception of [dist]
    for one of the lights; or None, every distance computed and no
    candidate; or a light selected at a distance. *)
Lemma closest_outcome p ls :
  (exists e c,
     closest (Some p) (Some ls) = Err e
     /\ In c ls /\ light_distance float_pow p c = Err e)
  \/ (closest (Some p) (Some ls) = Ok None
      /\ measured float_pow p ls
      /\ forall c dc, In c ls -> light_distance float_pow p c = Ok dc ->
           candidate math_atan2 (yaw_of p) p c dc = false)
  \/ (exists l d,
        closest (Some p) (Some ls) = Ok (Some l)
        /\ measured float_pow p ls
        /\ selected float_pow math_atan2 (yaw_of p) p ls l d).
Proof.
  simpl.
  destruct (scan_lights float_pow math_atan2 (yaw_of p) p ls)
    as [acc|e] eqn:Hscan.
  - destruct (scan_lights_inv _ _ _ _ _ _ Hscan)
      as [Hm [[-> Hnone] | (l & d & -> & Hsel)]].
    + right. left. auto.
    + right. right. exists l, d. auto.
  - left. destruct (scan_from_err _ _ _ _ _ _ _ Hscan) as (c & Hin & Hc).
    exists e, c. auto.
Qed.

Lemma selected_candidate_in yaw p ls l d :
  selected float_pow math_atan2 yaw p ls l d ->
  In l ls /\ light_distance float_pow p l = Ok d
  /\ candidate math_atan2 yaw p l d = true.
Proof.
  intros (pre & post & -> & Hd & Hc & _).
  split; [apply in_elt|]. split; [exact Hd|exact Hc].
Qed.

(** X3: the order of the lights matters for ties only: for two lists
    with the same lights in any order, get_closest_light raises for both,
    or returns None for both, or returns lights at the same distance for
    both. *)
Theorem closest_light_distance_permutation
    (p : PoseStamped.t) (ls ls' : list TrafficLight.t) :
  Permutation ls ls' ->
  (exists e e',
     closest (Some p) (Some ls) = Err e
     /\ closest (Some p) (Some ls') = Err e')
  \/ (closest (Some p) (Some ls) = Ok None
      /\ closest (Some p) (Some ls') = Ok None)
  \/ (exists l l' d,
        closest (Some p) (Some ls) = Ok (Some l)
        /\ closest (Some p) (Some ls') = Ok (Some l')
        /\ light_distance float_pow p l = Ok d
        /\ light_distance float_pow p l' = Ok d).
Proof.
  intros Hperm.
  pose proof (Permutation_in (l:=ls) (l':=ls')) as Hto.
  pose proof (Permutation_in (l:=ls') (l':=ls)) as Hfrom.
  specialize (fun x => Hto x Hperm).
  specialize (fun x => Hfrom x (Permutation_sym Hperm)).
  destruct (closest_outcome p ls)
    as [(e & c & E & Hin & Hc)
       | [(E & Hm & Hnone) | (l & d & E & Hm & Hsel)]];
    destruct (closest_outcome p ls')
      as [(e' & c' & E' & Hin' & Hc')
         | [(E' & Hm' & Hnone') | (l' & d' & E' & Hm' & Hsel')]].
  - left. eauto.
  - destruct (Hm' c (Hto c Hin)) as (dc & Hdc). congruence.
  - destruct (Hm' c (Hto c Hin)) as (dc & Hdc). congruence.
  - destruct (Hm c' (Hfrom c' Hin')) as (dc & Hdc). congruence.
  - right. left. auto.
  - destruct (selected_candidate_in _ _ _ _ _ Hsel') as (Hin' & Hd' & Hc').
    rewrite (Hnone l' d' (Hfrom l' Hin') Hd') in Hc'. discriminate.
  - destruct (Hm c' (Hfrom c' Hin')) as (dc & Hdc). congruence.
  - destruct (selected_candidate_in _ _ _ _ _ Hsel) as (Hin & Hd & Hc).
    rewrite (Hnone' l d (Hto l Hin) Hd) in Hc. discriminate.
  - destruct (selected_candidate_in _ _ _ _ _ Hsel) as (Hin & Hd & Hc).
    destruct (selected_candidate_in _ _ _ _ _ Hsel') as (Hin' & Hd' & Hc').
    right. right. exists l, l', d.
    split; [exact E|]. split; [exact E'|]. split; [exact Hd|].
    rewrite Hd'. f_equal. apply ltb_antisym_eq.
    + exact (selected_is_minimal _ _ _ _ _ _ _ _ _ Hsel
               (Hfrom l' Hin') Hd' Hc').
    + exact (selected_is_minimal _ _ _ _ _ _ _ _ _ Hsel'
               (Hto l Hin) Hd Hc).
    + exact (candidate_above_min _ _ _ _ _ Hc').
    + exact (candidate_above_min _ _ _ _ _ Hc).
Qed.

(** A rewriting [f] of the lights that keeps the x and y of every light's
    position commutes with one iteration of the loop. *)
Lemma scan_light_planar_map (f : TrafficLight.t -> TrafficLight.t) yaw p :
  (forall l,
     Point.x (Pose.position (PoseStamped.pose (TrafficLight.pose (f l))))
     = Point.x (Pose.position (PoseStamped.pose (TrafficLight.pose l)))
     /\ Point.y (Pose.position (PoseStamped.pose (TrafficLight.pose (f l))))
        = Point.y (Pose.position (PoseStamped.pose (TrafficLight.pose l)))) ->
  forall acc l,
    scan_light float_pow math_atan2 yaw p
      (option_map f (fst acc), snd acc) (f l)
    = result_map (fun a => (option_map f (fst a), snd a))
        (scan_light float_pow math_atan2 yaw p acc l).
Proof.
  intros Hf acc l.
  assert (Hd : light_distance float_pow p (f l)
               = light_distance float_pow p l).
  { unfold light_distance, dist. destruct (Hf l) as [-> ->]. reflexivity. }
  assert (Hh : in_cone math_atan2 yaw p (f l) = in_cone math_atan2 yaw p l).
  { unfold in_cone, light_heading. destruct (Hf l) as [-> ->].
    reflexivity. }
  unfold scan_light. rewrite Hd, Hh.
  destruct (light_distance float_pow p l) as [d|e]; [|reflexivity].
  simpl.
  destruct (match snd acc with Some b => _ | None => false end);
    [reflexivity|].
  destruct (in_range d); [|reflexivity].
  destruct (in_cone math_atan2 yaw p l); reflexivity.
Qed.

Lemma scan_from_planar_map (f : TrafficLight.t -> TrafficLight.t) yaw p :
  (forall l,
     Point.x (Pose.position (PoseStamped.pose (TrafficLight.pose (f l))))
     = Point.x (Pose.position (PoseStamped.pose (TrafficLight.pose l)))
     /\ Point.y (Pose.position (PoseStamped.pose (TrafficLight.pose (f l))))
        = Point.y (Pose.position (PoseStamped.pose (TrafficLight.pose l)))) ->
  forall ls acc,
    scan_lights_from float_pow math_atan2 yaw p (map f ls)
      (option_map f (fst acc), snd acc)
    = result_map (fun a => (option_map f (fst a), snd a))
        (scan_lights_from float_pow math_atan2 yaw p ls acc).
Proof.
  intros Hf. induction ls as [|l ls IH]; intros acc; [reflexivity|].
  simpl map. simpl scan_lights_from.
  rewrite (scan_light_planar_map f yaw p Hf).
  destruct (scan_light float_pow math_atan2 yaw p acc l) as [acc1|e];
    [|reflexivity].
  simpl. apply IH.
Qed.

(** X4: the selection looks at the x and y of the lights' positions only:
    rewriting every light in a way that keeps these two coordinates (for
    one, changing the reported state or the height) changes the returned
    light in just that way, and never which light of the list it is, nor
    whether the call raises. *)
Theorem closest_light_by_planar_position
    (f : TrafficLight.t -> TrafficLight.t)
    (pose : option PoseStamped.t) (ls : list TrafficLight.t) :
  (forall l,
     Point.x (Pose.position (PoseStamped.pose (TrafficLight.pose (f l))))
     = Point.x (Pose.position (PoseStamped.pose (TrafficLight.pose l)))
     /\ Point.y (Pose.position (PoseStamped.pose (TrafficLight.pose (f l))))
        = Point.y (Pose.position (PoseStamped.pose (TrafficLight.pose l)))) ->
  closest pose (Some (map f ls))
  = result_map (option_map f) (closest pose (Some ls)).
Proof.
  intros Hf. destruct pose as [p|]; [|reflexivity]. simpl.
  unfold scan_lights.
  pose proof (scan_from_planar_map f (yaw_of p) p Hf ls (None, None)) as H.
  simpl in H. rewrite H.
  destruct (scan_lights_from float_pow math_atan2 (yaw_of p) p ls
              (None, None)); reflexivity.
Qed.

End MoreSelectorFacts.

(** The witness of X3: the head 100 ahead and the light 10 ahead, in both
    orders. *)
Lemma X3_witness_two_orders :
  (exists e e',
     get_closest_light square_pow axis_atan2 level_euler
       (Some origin_pose) (Some [lower_head; near_light]) = Err e
     /\ get_closest_light square_pow axis_atan2 level_euler
          (Some origin_pose) (Some [near_light; lower_head]) = Err e')
  \/ (get_closest_light square_pow axis_atan2 level_euler
        (Some origin_pose) (Some [lower_head; near_light]) = Ok None
      /\ get_closest_light square_pow axis_atan2 level_euler
           (Some origin_pose) (Some [near_light; lower_head]) = Ok None)
  \/ (exists l l' d,
        get_closest_light square_pow axis_atan2 level_euler
          (Some origin_pose) (Some [lower_head; near_light]) = Ok (Some l)
        /\ get_closest_light square_pow axis_atan2 level_euler
             (Some origin_pose) (Some [near_light; lower_head])
           = Ok (Some l')
        /\ light_distance square_pow origin_pose l = Ok d
        /\ light_distance square_pow origin_pose l' = Ok d).
Proof.
  apply (closest_light_distance_permutation square_pow axis_atan2
           level_euler origin_pose
           [lower_head; near_light] [near_light; lower_head]).
  apply perm_swap.
Defined.

(** The witness of X4: erasing the reported states of the two heads. *)
Lemma X4_witness_unlit_heads :
  get_closest_light square_pow axis_atan2 level_euler (Some origin_pose)
    (Some (map unlit [lower_head; upper_head]))
  = result_map (option_map unlit)
      (get_closest_light square_pow axis_atan2 level_euler
         (Some origin_pose) (Some [lower_head; upper_head])).
Proof.
  apply (closest_light_by_planar_position square_pow axis_atan2
           level_euler unlit (Some origin_pose) [lower_head; upper_head]).
  intros l. split; reflexivity.
Defined.

(** ** More on the debounce block *)

Section MoreDebounceFacts.

Open Scope Z_scope.

(** X6: after a frame whose observation [st] differs from the observed
    state, the committed state and waypoint stay as they were while [st]
    is observed a second and a third time, each of which publishes the old
    committed waypoint; the fourth observation of [st] in a row commits
    it: last_state becomes [st], last_wp becomes that frame's waypoint if
    [st] is RED and -1 otherwise, and this value is published. *)
Theorem debounce_commits_on_fourth_in_a_row
    (self : TLDetector) (st : TrafficLight.state_t) (wp1 wp2 wp3 wp4 : Z) :
  st <> state self ->
  let s1 := final (debounce wp1 st self) in
  let s2 := final (debounce wp2 st s1) in
  let s3 := final (debounce wp3 st s2) in
  let s4 := final (debounce wp4 st s3) in
  let committed :=
    if TrafficLight.state_eqb st TrafficLight.RED then wp4 else -1 in
  (last_state s1 = last_state self /\ last_wp s1 = last_wp self)
  /\ (last_state s2 = last_state self /\ last_wp s2 = last_wp self)
  /\ (last_state s3 = last_state self /\ last_wp s3 = last_wp self)
  /\ upcoming_red_light_pub s3
     = upcoming_red_light_pub self ++ [last_wp self; last_wp self]
  /\ last_state s4 = st /\ last_wp s4 = committed
  /\ upcoming_red_light_pub s4 = upcoming_red_light_pub s3 ++ [committed].
Proof.
  intros Hne s1 s2 s3 s4 committed.
  assert (E1 : s1 = set_state_count 1
                      (set_state st (set_state_count 0 self))).
  { unfold s1. destruct (debounce_changed wp1 st self Hne) as [_ ->].
    reflexivity. }
  assert (E2 : s2 = set_state_count 2 (publish (last_wp s1) s1)).
  { unfold s2. rewrite (debounce_hold wp2 st s1).
    - rewrite E1. reflexivity.
    - rewrite E1. reflexivity.
    - rewrite E1. reflexivity. }
  assert (E3 : s3 = set_state_count 3 (publish (last_wp s2) s2)).
  { unfold s3. rewrite (debounce_hold wp3 st s2).
    - rewrite E2, E1. reflexivity.
    - rewrite E2, E1. reflexivity.
    - rewrite E2, E1. reflexivity. }
  assert (E4 : s4 = set_state_count 4
                      (publish committed
                         (set_last_wp committed
                            (set_last_state (state s3) s3)))).
  { unfold s4. rewrite (debounce_commit wp4 st s3).
    - rewrite E3, E2, E1. reflexivity.
    - rewrite E3, E2, E1. reflexivity.
    - rewrite E3. unfold STATE_COUNT_THRESHOLD. simpl. lia. }
  split; [rewrite E1; split; reflexivity|].
  split; [rewrite E2, E1; split; reflexivity|].
  split; [rewrite E3, E2, E1; split; reflexivity|].
  split.
  { rewrite E3, E2, E1. simpl. rewrite <- app_assoc. reflexivity. }
  split; [rewrite E4, E3, E2, E1; reflexivity|].
  split; rewrite E4; reflexivity.
Qed.

(** X7: a frame of the debounce block publishes nothing or one integer,
    the committed waypoint it leaves; and it keeps the invariant that a
    committed waypoint other than -1 comes with the committed state RED.
    So the node never publishes a stop waypoint for a light that it has
    not committed as RED. *)
Theorem debounce_stop_only_on_red
    (self : TLDetector) (light_wp : Z) (st : TrafficLight.state_t) :
  stop_only_on_red self ->
  stop_only_on_red (final (debounce light_wp st self))
  /\ (upcoming_red_light_pub (final (debounce light_wp st self))
      = upcoming_red_light_pub self
      \/ upcoming_red_light_pub (final (debounce light_wp st self))
         = upcoming_red_light_pub self
           ++ [last_wp (final (debounce light_wp st self))]).
Proof.
  intros Hinv.
  destruct (debounce_cases st self) as [H | [[H1 H2] | [H1 H2]]].
  - destruct (debounce_changed light_wp st self H) as [_ ->].
    split; [exact Hinv|left; reflexivity].
  - rewrite (debounce_commit light_wp st self H1 H2).
    split; [|right; reflexivity].
    unfold stop_only_on_red. simpl. rewrite <- H1.
    unfold TrafficLight.state_eqb.
    destruct (TrafficLight.state_eq_dec st TrafficLight.RED); auto.
  - rewrite (debounce_hold light_wp st self H1 H2).
    split; [exact Hinv|right; reflexivity].
Qed.


(** What the block leaves alone. *)
Lemma debounce_keeps_rest light_wp st self :
  exists self',
    debounce light_wp st self = Returns tt self'
    /\ pose self' = pose self /\ waypoints self' = waypoints self
    /\ lights self' = lights self /\ camera_image self' = camera_image self
    /\ has_image self' = has_image self
    /\ prev_light_loc self' = prev_light_loc self
    /\ config self' = config self /\ gt_builer self' = gt_builer self.
Proof.
  destruct (debounce_cases st self) as [H | [[H1 H2] | [H1 H2]]].
  - destruct (debounce_changed light_wp st self H) as [_ ->].
    eexists. split; [reflexivity|]. repeat split.
  - rewrite (debounce_commit light_wp st self H1 H2).
    eexists. split; [reflexivity|]. repeat split.
  - rewrite (debounce_hold light_wp st self H1 H2).
    eexists. split; [reflexivity|]. repeat split.
Qed.

End MoreDebounceFacts.

(** The witness of X6: RED seen four times in a row after [__init__],
    with the stop waypoints 40, 41, 42, 43. *)
Lemma X6_witness_four_reds :
  let self := init one_stop_line in
  let st := TrafficLight.RED in
  let s1 := final (debounce 40 st self) in
  let s2 := final (debounce 41 st s1) in
  let s3 := final (debounce 42 st s2) in
  let s4 := final (debounce 43 st s3) in
  let committed :=
    if TrafficLight.state_eqb st TrafficLight.RED then 43 else -1 in
  (last_state s1 = last_state self /\ last_wp s1 = last_wp self)
  /\ (last_state s2 = last_state self /\ last_wp s2 = last_wp self)
  /\ (last_state s3 = last_state self /\ last_wp s3 = last_wp self)
  /\ upcoming_red_light_pub s3
     = upcoming_red_light_pub self ++ [last_wp self; last_wp self]
  /\ last_state s4 = st /\ last_wp s4 = committed
  /\ upcoming_red_light_pub s4 = upcoming_red_light_pub s3 ++ [committed].
Proof.
  apply (debounce_commits_on_fourth_in_a_row (init one_stop_line)
           TrafficLight.RED 40 41 42 43).
  discriminate.
Defined.

(** The witness of X7: the first frame after [__init__], observing RED. *)
Lemma X7_witness_after_init :
  stop_only_on_red
    (final (debounce 42 TrafficLight.RED (init one_stop_line)))
  /\ (upcoming_red_light_pub
        (final (debounce 42 TrafficLight.RED (init one_stop_line)))
      = upcoming_red_light_pub (init one_stop_line)
      \/ upcoming_red_light_pub
           (final (debounce 42 TrafficLight.RED (init one_stop_line)))
         = upcoming_red_light_pub (init one_stop_line)
           ++ [last_wp
                 (final (debounce 42 TrafficLight.RED
                           (init one_stop_line)))]).
Proof.
  apply (debounce_stop_only_on_red (init one_stop_line) 42
           TrafficLight.RED).
  left. reflexivity.
Defined.

(** ** More on image_cb *)

Section MoreNodeFacts.

Open Scope Z_scope.

Variable float_pow : float -> float -> result float.
Variable math_atan2 : float -> float -> float.
Variable euler_from_quaternion : float * float * float * float
                                 -> float * float * float.
Variable imgmsg_to_cv2 : option Image.t -> string -> CvImage.
Variable get_classification : CvImage -> TrafficLight.state_t.

Local Abbreviation closest :=
  (get_closest_light float_pow math_atan2 euler_from_quaternion).
Local Abbreviation frame :=
  (image_cb float_pow math_atan2 euler_from_quaternion imgmsg_to_cv2
     get_classification).
Local Abbreviation in_run :=
  (reachable float_pow math_atan2 euler_from_quaternion imgmsg_to_cv2
     get_classification).
Local Abbreviation run :=
  (run_events float_pow math_atan2 euler_from_quaternion imgmsg_to_cv2
     get_classification).
Local Abbreviation completed :=
  (completed_frames float_pow math_atan2 euler_from_quaternion
     imgmsg_to_cv2 get_classification).





Lemma run_events_app evs evs' self :
  run (evs ++ evs') self = run evs' (run evs self).
Proof. unfold run_events. apply fold_left_app. Qed.

Lemma run_events_cons ev evs self :
  run (ev :: evs) self
  = run evs
      (final (callback float_pow math_atan2 euler_from_quaternion
                imgmsg_to_cv2 get_classification ev self)).
Proof. reflexivity. Qed.

Lemma repeat_snoc (n : nat) : repeat (-1) n ++ [-1] = repeat (-1) (S n).
Proof. induction n as [|n IH]; [reflexivity|]. simpl. f_equal. exact IH. Qed.

(** One frame at an object that has observed UNKNOWN only. *)
Lemma frame_counts msg self (n : nat) :
  state self = TrafficLight.UNKNOWN ->
  last_state self = TrafficLight.UNKNOWN ->
  last_wp self = -1 ->
  state_count self = Z.of_nat n ->
  upcoming_red_light_pub self = repeat (-1) n ->
  let o := frame msg self in
  let n' := if returns o then S n else n in
  state (final o) = TrafficLight.UNKNOWN
  /\ last_state (final o) = TrafficLight.UNKNOWN
  /\ last_wp (final o) = -1
  /\ state_count (final o) = Z.of_nat n'
  /\ upcoming_red_light_pub (final o) = repeat (-1) n'.
Proof.
  intros Hs Hl Hw Hc Hp. cbn zeta.
  destruct (closest (pose self) (Some (lights self))) as [light|e] eqn:Hsel.
  - destruct (image_cb_eq float_pow math_atan2 euler_from_quaternion
                imgmsg_to_cv2 get_classification msg self light Hsel)
      as (s1 & -> & _ & A1 & A2 & A3 & A4 & A5).
    rewrite <- A1 in Hs. rewrite <- A2 in Hl. rewrite <- A3 in Hw.
    rewrite <- A4 in Hc. rewrite <- A5 in Hp.
    destruct (debounce_cases TrafficLight.UNKNOWN s1)
      as [H | [[H1 H2] | [H1 H2]]].
    + congruence.
    + rewrite (debounce_commit _ _ _ H1 H2).
      change (if TrafficLight.state_eqb TrafficLight.UNKNOWN
                   TrafficLight.RED
              then -1 else -1) with (-1).
      cbn [final returns state last_state last_wp state_count
           upcoming_red_light_pub set_state_count publish set_last_wp
           set_last_state].
      rewrite Hs, Hc, Hp, repeat_snoc. repeat split. lia.
    + rewrite (debounce_hold _ _ _ H1 H2).
      cbn [final returns state last_state last_wp state_count
           upcoming_red_light_pub set_state_count publish].
      rewrite Hs, Hl, Hw, Hc, Hp, repeat_snoc. repeat split. lia.
  - rewrite (image_cb_aborts float_pow math_atan2 euler_from_quaternion
               imgmsg_to_cv2 get_classification msg self e Hsel).
    cbn [final returns]. repeat split; assumption.
Qed.

Lemma run_events_counts evs :
  forall self (n : nat),
    state self = TrafficLight.UNKNOWN ->
    last_state self = TrafficLight.UNKNOWN ->
    last_wp self = -1 ->
    state_count self = Z.of_nat n ->
    upcoming_red_light_pub self = repeat (-1) n ->
    let self' := run evs self in
    let n' := (n + completed evs self)%nat in
    state self' = TrafficLight.UNKNOWN
    /\ last_state self' = TrafficLight.UNKNOWN
    /\ last_wp self' = -1
    /\ state_count self' = Z.of_nat n'
    /\ upcoming_red_light_pub self' = repeat (-1) n'.
Proof.
  induction evs as [|ev evs IH]; intros self n Hs Hl Hw Hc Hp.
  - simpl. rewrite Nat.add_0_r. auto.
  - destruct ev as [msg | lane | msg | msg].
    + apply (IH (final (pose_cb msg self)) n); assumption.
    + apply (IH (final (waypoints_cb lane self)) n); assumption.
    + apply (IH (final (traffic_cb msg self)) n); assumption.
    + destruct (frame_counts msg self n Hs Hl Hw Hc Hp)
        as (Hs' & Hl' & Hw' & Hc' & Hp').
      pose proof (IH _ _ Hs' Hl' Hw' Hc' Hp') as H.
      cbn zeta in H |- *.
      cbn [completed_frames is_frame andb callback].
      unfold run_events in *. cbn [fold_left callback].
      destruct (returns (frame msg self)); cbn [Nat.add] in H |- *;
        [rewrite Nat.add_succ_r|]; exact H.
Qed.

(** X11: whatever messages arrive after [__init__], in whatever order,
    the node has published one -1 per camera frame whose callback
    returned, and nothing else, and state_count equals the number of
    these frames: it is never reset and has no upper bound.  The observed
    and the committed state are UNKNOWN and the committed waypoint is -1
    throughout. *)
Theorem run_publishes_minus_one_per_frame
    (cfg : Config) (evs : list event) :
  let self := run evs (init cfg) in
  let n := completed evs (init cfg) in
  upcoming_red_light_pub self = repeat (-1) n
  /\ state_count self = Z.of_nat n
  /\ state self = TrafficLight.UNKNOWN
  /\ last_state self = TrafficLight.UNKNOWN
  /\ last_wp self = -1.
Proof.
  destruct (run_events_counts evs (init cfg) 0%nat)
    as (Hs & Hl & Hw & Hc & Hp); try reflexivity.
  simpl. auto.
Qed.

(** The caches after one frame. *)
Lemma image_cb_caches msg self :
  let o := frame msg self in
  pose (final o) = pose self /\ lights (final o) = lights self
  /\ camera_image (final o) = Some msg
  /\ waypoints (final o) = if returns o then None else waypoints self.
Proof.
  cbn zeta. rewrite image_cb_unfold.
  destruct (closest (pose self) (Some (lights self))) as [light|e].
  - match goal with |- context [debounce _ _ ?s] =>
      destruct (debounce_keeps_rest (-1) TrafficLight.UNKNOWN s)
        as (s' & -> & Hp & Hw & Hl & Hc & _)
    end.
    cbn [final returns]. rewrite Hp, Hl, Hc, Hw.
    destruct light; repeat split.
  - repeat split.
Qed.

Lemma run_keeps_pose rest :
  forall self,
    forallb (fun ev => negb (is_pose_msg ev)) rest = true ->
    pose (run rest self) = pose self.
Proof.
  induction rest as [|ev rest IH]; intros self Hno; [reflexivity|].
  simpl in Hno. apply andb_prop in Hno as [Hev Hno].
  unfold run_events in *. simpl fold_left. rewrite (IH _ Hno).
  destruct ev as [msg | lane | msg | msg]; try reflexivity;
    [discriminate|].
  apply (image_cb_caches msg self).
Qed.

Lemma run_keeps_lights rest :
  forall self,
    forallb (fun ev => negb (is_traffic_msg ev)) rest = true ->
    lights (run rest self) = lights self.
Proof.
  induction rest as [|ev rest IH]; intros self Hno; [reflexivity|].
  simpl in Hno. apply andb_prop in Hno as [Hev Hno].
  unfold run_events in *. simpl fold_left. rewrite (IH _ Hno).
  destruct ev as [msg | lane | msg | msg]; try reflexivity;
    [discriminate|].
  apply (image_cb_caches msg self).
Qed.

Lemma run_keeps_camera_image rest :
  forall self,
    forallb (fun ev => negb (is_frame ev)) rest = true ->
    camera_image (run rest self) = camera_image self.
Proof.
  induction rest as [|ev rest IH]; intros self Hno; [reflexivity|].
  simpl in Hno. apply andb_prop in Hno as [Hev Hno].
  unfold run_events in *. simpl fold_left. rewrite (IH _ Hno).
  destruct ev as [msg | lane | msg | msg]; try reflexivity.
  discriminate.
Qed.

Lemma run_clears_waypoints rest :
  forall self,
    forallb (fun ev => negb (is_waypoints_msg ev)) rest = true ->
    waypoints (run rest self)
    = match completed rest self with
      | O => waypoints self
      | S _ => None
      end.
Proof.
  induction rest as [|ev rest IH]; intros self Hno; [reflexivity|].
  simpl in Hno. apply andb_prop in Hno as [Hev Hno].
  unfold run_events in *. simpl fold_left. rewrite (IH _ Hno).
  cbn [completed_frames].
  destruct ev as [msg | lane | msg | msg]; try reflexivity;
    [discriminate|].
  cbn [is_frame andb callback].
  destruct (image_cb_caches msg self) as (_ & _ & _ & ->).
  destruct (returns (frame msg self)).
  - cbn [Nat.add]. destruct (completed rest _); reflexivity.
  - reflexivity.
Qed.

(** X12: the node keeps the latest value of each input.  After any run,
    the cached pose is the last pose message, the cached lights are those
    of the last traffic message and the cached image is the last camera
    frame; the cached route is the last waypoint message as long as no
    camera frame after it has got past get_closest_light, and None from
    the first such frame on. *)
Theorem run_caches_latest
    (pre rest : list event) (self : TLDetector) :
  (forall msg,
     forallb (fun ev => negb (is_pose_msg ev)) rest = true ->
     pose (run (pre ++ PoseMsg msg :: rest) self) = Some msg)
  /\ (forall msg,
        forallb (fun ev => negb (is_traffic_msg ev)) rest = true ->
        lights (run (pre ++ TrafficMsg msg :: rest) self) = msg)
  /\ (forall msg,
        forallb (fun ev => negb (is_frame ev)) rest = true ->
        camera_image (run (pre ++ ImageMsg msg :: rest) self) = Some msg)
  /\ (forall lane,
        forallb (fun ev => negb (is_waypoints_msg ev)) rest = true ->
        waypoints (run (pre ++ WaypointsMsg lane :: rest) self)
        = match completed rest
                  (final (waypoints_cb lane (run pre self))) with
          | O => Some lane
          | S _ => None
          end).
Proof.
  repeat split; intros msg Hno;
    rewrite run_events_app, run_events_cons; cbn [callback].
  - rewrite (run_keeps_pose _ _ Hno). reflexivity.
  - rewrite (run_keeps_lights _ _ Hno). reflexivity.
  - rewrite (run_keeps_camera_image _ _ Hno).
    apply (image_cb_caches msg).
  - rewrite (run_clears_waypoints _ _ Hno). reflexivity.
Qed.

End MoreNodeFacts.



(** The witness of X12: a route, a pose and then a camera frame: the pose
    is still cached, the route is gone. *)
Lemma X12_witness_route_then_frame :
  pose (scenario_run
          ([WaypointsMsg (Lane.mk [])] ++ PoseMsg origin_pose
             :: [ImageMsg blank_frame])
          (init one_stop_line))
  = Some origin_pose
  /\ waypoints (scenario_run
                  ([] ++ WaypointsMsg (Lane.mk [])
                     :: [PoseMsg origin_pose; ImageMsg blank_frame])
                  (init one_stop_line))
     = match completed_frames square_pow axis_atan2 level_euler blank_cv2
               blind_classifier
               [PoseMsg origin_pose; ImageMsg blank_frame]
               (final (waypoints_cb (Lane.mk [])
                         (scenario_run [] (init one_stop_line)))) with
       | O => Some (Lane.mk [])
       | S _ => None
       end.
Proof.
  split.
  - apply (proj1 (run_caches_latest square_pow axis_atan2 level_euler
                    blank_cv2 blind_classifier
                    [WaypointsMsg (Lane.mk [])] [ImageMsg blank_frame]
                    (init one_stop_line))).
    reflexivity.
  - apply (proj2 (proj2 (proj2
             (run_caches_latest square_pow axis_atan2 level_euler
                blank_cv2 blind_classifier
                [] [PoseMsg origin_pose; ImageMsg blank_frame]
                (init one_stop_line))))).
    reflexivity.
Defined.

(** ** GroundTruthBuilder *)

Section BuilderFacts.

Import GroundTruthBuilder.

Open Scope Z_scope.

Lemma count_state_cons st st' img shots :
  count_state st' ((st, img) :: shots)
  = (if TrafficLight.state_eqb st st' then 1 else 0) + count_state st' shots.
Proof.
  unfold count_state. simpl filter.
  destruct (TrafficLight.state_eqb st st'); [|lia].
  simpl List.length. lia.
Qed.

Lemma save_images_cons st img shots b :
  save_images ((st, img) :: shots) b
  = save_images shots (save_image st img b).
Proof. reflexivity. Qed.

(** X13: a sequence of calls of save_image raises red_count, yellow_count
    and green_count by the number of RED, YELLOW and GREEN shots, writes
    one file per such shot and none for any other state, and leaves the
    directories alone; so for a builder made by [__init__] the three
    counts add up to the number of files written (the Total of line
    46). *)
Theorem save_images_counts
    (shots : list (TrafficLight.state_t * CvImage)) (b : t) :
  let b' := save_images shots b in
  red_count b' = red_count b + count_state TrafficLight.RED shots
  /\ yellow_count b' = yellow_count b + count_state TrafficLight.YELLOW shots
  /\ green_count b' = green_count b + count_state TrafficLight.GREEN shots
  /\ Z.of_nat (List.length (written b'))
     = Z.of_nat (List.length (written b))
       + count_state TrafficLight.RED shots
       + count_state TrafficLight.YELLOW shots
       + count_state TrafficLight.GREEN shots
  /\ (red_dir b', yellow_dir b', green_dir b', images_dir b')
     = (red_dir b, yellow_dir b, green_dir b, images_dir b)
  /\ (b = init ->
      red_count b' + yellow_count b' + green_count b'
      = Z.of_nat (List.length (written b'))).
Proof.
  cbn zeta.
  assert (H : red_count (save_images shots b)
              = red_count b + count_state TrafficLight.RED shots
              /\ yellow_count (save_images shots b)
                 = yellow_count b + count_state TrafficLight.YELLOW shots
              /\ green_count (save_images shots b)
                 = green_count b + count_state TrafficLight.GREEN shots
              /\ Z.of_nat (List.length (written (save_images shots b)))
                 = Z.of_nat (List.length (written b))
                   + count_state TrafficLight.RED shots
                   + count_state TrafficLight.YELLOW shots
                   + count_state TrafficLight.GREEN shots
              /\ (red_dir (save_images shots b),
                  yellow_dir (save_images shots b),
                  green_dir (save_images shots b),
                  images_dir (save_images shots b))
                 = (red_dir b, yellow_dir b, green_dir b, images_dir b)).
  { revert b. induction shots as [|[st img] shots IH]; intros b.
    - unfold count_state. simpl. repeat split; lia || reflexivity.
    - rewrite save_images_cons, !count_state_cons.
      destruct (IH (save_image st img b)) as (Hr & Hy & Hg & Hw & Hd).
      rewrite Hr, Hy, Hg, Hw, Hd.
      repeat match goal with
             | |- context [TrafficLight.state_eqb ?a ?c] =>
                 is_var a;
                 destruct a
             end;
        repeat match goal with
               | |- context [TrafficLight.state_eqb ?a ?c] =>
                   let v := eval vm_compute in (TrafficLight.state_eqb a c) in
                   change (TrafficLight.state_eqb a c) with v
               end;
        cbn [save_image red_count yellow_count green_count written
             red_dir yellow_dir green_dir images_dir];
        rewrite ?last_length;
        repeat split; lia || reflexivity. }
  destruct H as (Hr & Hy & Hg & Hw & Hd).
  repeat split; try assumption.
  intros ->. rewrite Hr, Hy, Hg, Hw. simpl. lia.
Qed.

(** *** File names *)

Lemma string_length_append (a b : string) :
  String.length (a ++ b) = (String.length a + String.length b)%nat.
Proof.
  induction a as [|c a IH]; simpl; [reflexivity|].
  rewrite IH. reflexivity.
Qed.

Lemma append_cancel_l (a b c : string) : (a ++ b = a ++ c -> b = c)%string.
Proof.
  induction a as [|ch a IH]; simpl; intros H; [exact H|].
  injection H as H. exact (IH H).
Qed.

Lemma append_cancel_r (c : string) :
  forall a b : string, (a ++ c = b ++ c -> a = b)%string.
Proof.
  induction a as [|x a IH]; destruct b as [|y b]; simpl; intros H.
  - reflexivity.
  - apply (f_equal String.length) in H. simpl in H.
    rewrite string_length_append in H. lia.
  - apply (f_equal String.length) in H. simpl in H.
    rewrite string_length_append in H. lia.
  - injection H as -> H. f_equal. exact (IH b H).
Qed.

Lemma to_int_not_nil (k : Z) :
  Z.to_int k <> Decimal.Pos Decimal.Nil
  /\ Z.to_int k <> Decimal.Neg Decimal.Nil.
Proof.
  split; intros H; pose proof (f_equal Z.of_int H) as H';
    rewrite DecimalZ.of_to in H'; simpl in H'; subst k; discriminate H.
Qed.

Lemma decimal_inj (k k' : Z) :
  NilZero.string_of_int (Z.to_int k) = NilZero.string_of_int (Z.to_int k') ->
  k = k'.
Proof.
  intros H. apply DecimalZ.to_int_inj.
  destruct (to_int_not_nil k) as [Hp Hn].
  destruct (to_int_not_nil k') as [Hp' Hn'].
  pose proof (NilZero.isi _ Hp Hn) as E.
  pose proof (NilZero.isi _ Hp' Hn') as E'.
  rewrite H in E. rewrite E in E'. injection E' as E'. exact E'.
Qed.

(** In one directory, different counts give different file names. *)
Lemma png_path_inj (dir : string) (k k' : Z) :
  png_path dir k = png_path dir k' -> k = k'.
Proof.
  unfold png_path. intros H.
  apply append_cancel_l in H. simpl in H. injection H as H.
  apply append_cancel_r in H. apply decimal_inj. exact H.
Qed.

(** The three directories of [init] never share a file name. *)
Lemma png_path_dirs (k k' : Z) :
  png_path (red_dir init) k <> png_path (yellow_dir init) k'
  /\ png_path (red_dir init) k <> png_path (green_dir init) k'
  /\ png_path (yellow_dir init) k <> png_path (green_dir init) k'.
Proof.
  unfold png_path. repeat split; intros H; simpl in H; discriminate H.
Qed.

Lemma NoDup_snoc {A : Type} (l : list A) (x : A) :
  NoDup l -> ~ In x l -> NoDup (l ++ [x]).
Proof.
  intros Hl Hx. apply NoDup_app; [exact Hl|repeat constructor; intros []|].
  intros a Ha [<- | []]. exact (Hx Ha).
Qed.

Lemma builder_inv_init : builder_inv init.
Proof.
  unfold builder_inv, written_names. simpl.
  repeat split; try lia; try (intros f []); constructor.
Qed.

Lemma builder_inv_save st img b :
  builder_inv b -> builder_inv (save_image st img b).
Proof.
  intros (Hr & Hy & Hg & (Hcr & Hcy & Hcg) & Hnames & Hnd).
  destruct st; [| | |repeat split; assumption];
    unfold builder_inv, written_names in *; simpl;
    (split; [exact Hr|]); (split; [exact Hy|]); (split; [exact Hg|]);
    (split; [repeat split; lia|]);
    rewrite map_app; simpl map.
  - rewrite Hr. split.
    + intros f Hin. apply in_app_or in Hin as [Hin | [<- | []]].
      * destruct (Hnames f Hin) as [(k & Hk & E) | [H | H]]; auto.
        left. exists k. split; [lia|exact E].
      * left. exists (red_count b + 1). split; [lia|reflexivity].
    + apply NoDup_snoc; [exact Hnd|]. intros Hin.
      destruct (Hnames _ Hin)
        as [(k & Hk & E) | [(k & Hk & E) | (k & Hk & E)]].
      * apply png_path_inj in E. lia.
      * exact (proj1 (png_path_dirs _ _) E).
      * exact (proj1 (proj2 (png_path_dirs _ _)) E).
  - rewrite Hy. split.
    + intros f Hin. apply in_app_or in Hin as [Hin | [<- | []]].
      * destruct (Hnames f Hin) as [H | [(k & Hk & E) | H]]; auto.
        right. left. exists k. split; [lia|exact E].
      * right. left. exists (yellow_count b + 1).
        split; [lia|reflexivity].
    + apply NoDup_snoc; [exact Hnd|]. intros Hin.
      destruct (Hnames _ Hin)
        as [(k & Hk & E) | [(k & Hk & E) | (k & Hk & E)]].
      * symmetry in E. exact (proj1 (png_path_dirs _ _) E).
      * apply png_path_inj in E. lia.
      * exact (proj2 (proj2 (png_path_dirs _ _)) E).
  - rewrite Hg. split.
    + intros f Hin. apply in_app_or in Hin as [Hin | [<- | []]].
      * destruct (Hnames f Hin) as [H | [H | (k & Hk & E)]]; auto.
        right. right. exists k. split; [lia|exact E].
      * right. right. exists (green_count b + 1).
        split; [lia|reflexivity].
    + apply NoDup_snoc; [exact Hnd|]. intros Hin.
      destruct (Hnames _ Hin)
        as [(k & Hk & E) | [(k & Hk & E) | (k & Hk & E)]].
      * symmetry in E. exact (proj1 (proj2 (png_path_dirs _ _)) E).
      * symmetry in E. exact (proj2 (proj2 (png_path_dirs _ _)) E).
      * apply png_path_inj in E. lia.
Qed.

Lemma builder_inv_save_images shots :
  forall b, builder_inv b -> builder_inv (save_images shots b).
Proof.
  induction shots as [|[st img] shots IH]; intros b Hb; [exact Hb|].
  rewrite save_images_cons. apply IH, builder_inv_save, Hb.
Qed.

(** X14: a builder made by [__init__] never writes to the same file
    twice: whatever the sequence of calls of save_image, the names of the
    files written are pairwise different, each being the file of a count
    from 1 to the count reached in its colour's directory. *)
Theorem save_images_never_overwrites
    (shots : list (TrafficLight.state_t * CvImage)) :
  let b := save_images shots init in
  NoDup (written_names b)
  /\ forall f, In f (written_names b) ->
       (exists k, 1 <= k <= red_count b /\ f = png_path (red_dir init) k)
       \/ (exists k, 1 <= k <= yellow_count b
             /\ f = png_path (yellow_dir init) k)
       \/ (exists k, 1 <= k <= green_count b
             /\ f = png_path (green_dir init) k).
Proof.
  cbn zeta.
  destruct (builder_inv_save_images shots init builder_inv_init)
    as (_ & _ & _ & _ & Hnames & Hnd).
  split; [exact Hnd|exact Hnames].
Qed.

End BuilderFacts.

(** The witness of X13: a RED shot, a shot of an UNKNOWN light and a GREEN
    shot after [__init__]: two files, and the counts add up to two. *)
Lemma X13_witness_three_shots :
  GroundTruthBuilder.red_count
    (save_images
       [(TrafficLight.RED, []); (TrafficLight.UNKNOWN, []);
        (TrafficLight.GREEN, [])] GroundTruthBuilder.init)
  + GroundTruthBuilder.yellow_count
      (save_images
         [(TrafficLight.RED, []); (TrafficLight.UNKNOWN, []);
          (TrafficLight.GREEN, [])] GroundTruthBuilder.init)
  + GroundTruthBuilder.green_count
      (save_images
         [(TrafficLight.RED, []); (TrafficLight.UNKNOWN, []);
          (TrafficLight.GREEN, [])] GroundTruthBuilder.init)
  = Z.of_nat
      (List.length
         (GroundTruthBuilder.written
            (save_images
               [(TrafficLight.RED, []); (TrafficLight.UNKNOWN, []);
                (TrafficLight.GREEN, [])] GroundTruthBuilder.init))).
Proof.
  apply (proj2 (proj2 (proj2 (proj2 (proj2
           (save_images_counts
              [(TrafficLight.RED, []); (TrafficLight.UNKNOWN, []);
               (TrafficLight.GREEN, [])] GroundTruthBuilder.init)))))).
  reflexivity.
Defined.
